(** * Shot planner: a shallow embedding of [app.py] and its specification

    The program computes with IEEE-754 binary64 numbers (Python [float],
    NumPy [float64]).  Its arithmetic is embedded once, over an interface
    [Scalar] of the operations the source uses, and read at two carriers:

    - [float] (Rocq's primitive binary64 numbers): the arithmetic the
      program really performs, executable, with NaN and signed zeros;
    - [R]: the exact arithmetic in which the specification writes its
      formulas.

    SciPy's [fsolve], [quad] and [solve_ivp] are external collaborators:
    every definition that calls one takes it as an argument. *)

From Stdlib Require Import Strings.String.
From Stdlib Require Import ZArith QArith Qround List Bool Lia.
From Stdlib Require Import Floats Uint63.
From Stdlib Require Import Reals Lra.
Import ListNotations.

Set Implicit Arguments.
Set Warnings "-inexact-float".

(* ================================================================== *)
(** ** Scalars *)

(** What the source asks of its numbers: decimal literals, [int]
    operands promoted to [float], the constant [numpy.pi], the four
    operations, negation, [abs], [sqrt], the comparisons and (for
    [numpy.arange]) the ceiling of a quotient. *)
Class Scalar (T : Type) : Type := {
  lit    : Q -> T;
  of_int : Z -> T;
  pi     : T;
  add    : T -> T -> T;
  sub    : T -> T -> T;
  mul    : T -> T -> T;
  div    : T -> T -> T;
  neg    : T -> T;
  fabs   : T -> T;
  fsqrt  : T -> T;
  lt     : T -> T -> bool;
  eqn    : T -> T -> bool;
  ceil   : T -> option Z
}.

(** The functions the source imports from NumPy's libm wrapper. *)
Class Libm (T : Type) : Type := {
  tan    : T -> T;
  cos    : T -> T;
  arctan2 : T -> T -> T
}.

Declare Scope scalar_scope.
Delimit Scope scalar_scope with sc.
Infix "+" := add : scalar_scope.
Infix "-" := sub : scalar_scope.
Infix "*" := mul : scalar_scope.
Infix "/" := div : scalar_scope.
Notation "- x" := (neg x) : scalar_scope.
Infix "<?" := lt : scalar_scope.
Notation "x >? y" := (lt y x) : scalar_scope.

(** *** binary64 *)

Module F64.

(** An [int] operand promoted to [float]; exact below 2^53. *)
Definition of_Z (z : Z) : float :=
    match z with
    | Z0 => PrimFloat.zero
    | Zpos _ => PrimFloat.of_uint63 (Uint63.of_Z z)
    | Zneg p => PrimFloat.opp (PrimFloat.of_uint63 (Uint63.of_Z (Zpos p)))
    end.

(** A decimal literal [n/10^k]: numerator and denominator are exact,
      and the division rounds once, to the nearest binary64 value, which
      is what the Python parser produces for the literal. *)
Definition of_Q (q : Q) : float :=
    PrimFloat.div (of_Z (Qnum q)) (of_Z (Zpos (Qden q))).

(** [math.ceil]: the least integer not below a finite value; none for
      an infinity or a NaN (Python raises there). *)
Definition ceil (x : float) : option Z :=
    match Prim2SF x with
    | S754_zero _ => Some 0%Z
    | S754_finite s m e =>
        let n := if s then Zneg m else Zpos m in
        Some (if (0 <=? e)%Z then (n * 2 ^ e)%Z
              else (- ((- n) / 2 ^ (- e)))%Z)
    | S754_infinity _ | S754_nan => None
    end.

(** [numpy.pi] *)
Definition pi : float := 3.141592653589793%float.

End F64.

#[export] Instance float_scalar : Scalar float := {|
  lit    := F64.of_Q;
  of_int := F64.of_Z;
  pi     := F64.pi;
  add    := PrimFloat.add;
  sub    := PrimFloat.sub;
  mul    := PrimFloat.mul;
  div    := PrimFloat.div;
  neg    := PrimFloat.opp;
  fabs   := PrimFloat.abs;
  fsqrt  := PrimFloat.sqrt;
  lt     := PrimFloat.ltb;
  eqn    := PrimFloat.eqb;
  ceil   := F64.ceil
|}.

(** *** exact reals *)

Module Exact.

Definition lt (a b : R) : bool := if Rlt_dec a b then true else false.
Definition eqn (a b : R) : bool := if Req_dec_T a b then true else false.

(** The two-argument arctangent, by quadrant. *)
Definition arctan2 (y x : R) : R :=
    if Rlt_dec 0 x then atan (y / x)
    else if Rlt_dec x 0 then
      (if Rlt_dec y 0 then atan (y / x) - PI else atan (y / x) + PI)
    else if Rlt_dec 0 y then PI / 2
    else if Rlt_dec y 0 then - PI / 2
    else 0.

End Exact.

#[export] Instance real_scalar : Scalar R := {|
  lit    := Q2R;
  of_int := IZR;
  pi     := PI;
  add    := Rplus;
  sub    := Rminus;
  mul    := Rmult;
  div    := Rdiv;
  neg    := Ropp;
  fabs   := Rabs;
  fsqrt  := sqrt;
  lt     := Exact.lt;
  eqn    := Exact.eqn;
  ceil   := fun r => Some (Zceil r)
|}.

#[export] Instance real_libm : Libm R := {|
  tan     := Rtrigo1.tan;
  cos     := Rtrigo_def.cos;
  arctan2 := Exact.arctan2
|}.

(* ================================================================== *)
(** ** Python built-ins and NumPy helpers used by the source *)

Section Builtins.
Context {T : Type} {SC : Scalar T}.
Local Open Scope scalar_scope.

(** [max(a, b)]: the first argument unless the second is greater. *)
Definition pymax (a b : T) : T := if b >? a then b else a.

(** [min(a, b)]: the first argument unless the second is smaller. *)
Definition pymin (a b : T) : T := if b <? a then b else a.

(** [x ** 2] *)
Definition sq (x : T) : T := x * x.

(** [numpy.radians], [numpy.degrees] *)
Definition radians (x : T) : T := x * (pi / of_int 180).
Definition degrees (x : T) : T := x * (of_int 180 / pi).

(** [seq[-1]] *)
Definition last_error (l : list T) : option T :=
    match l with
    | [] => None
    | a :: l' => Some (last l' a)
    end.

End Builtins.

(* ================================================================== *)
(** ** Constants (app.py, lines 9-16) *)

Section Constants.
Context {T : Type} {SC : Scalar T}.
Local Open Scope scalar_scope.

Definition g : T := lit 9.81.
Definition rim_width : T := lit 1.04.
Definition rim_height : T := lit 1.83.
Definition cargo_radius : T := lit 0.15 / of_int 2.
Definition drag_coeff : T := lit 0.23.
Definition cargo_mass : T := lit 0.21.
Definition air_density : T := lit 1.225.
Definition cargo_area : T := pi * sq cargo_radius.

End Constants.

(* ================================================================== *)
(** ** Required-speed model (lines 19-24) *)

Section RequiredSpeed.
Context {T : Type} {SC : Scalar T} {LM : Libm T}.
Local Open Scope scalar_scope.

Definition get_speed_func_squared (startpt endpt : T * T) : T -> T :=
    let '(x0, y0) := startpt in
    let '(x1, y1) := endpt in
    fun a =>
      (lit 0.5 * g / (y0 - y1 + (x1 - x0) * tan a)) * sq ((x1 - x0) / cos a).

End RequiredSpeed.

(* ================================================================== *)
(** ** Exceptions

    A Python expression that raises ([seq[0]] on an empty sequence, an
    array length that cannot be computed) is [None]; sequencing is the
    usual bind. *)

Definition bind {A B : Type} (o : option A) (k : A -> option B) : option B :=
  match o with
  | Some a => k a
  | None => None
  end.

Notation "x <- e ;; k" := (bind e (fun x => k))
  (at level 61, e at next level, right associativity).

(** A loop that appends one computed entry per element and stops at the
    first exception. *)
Fixpoint for_each {A B : Type} (f : A -> option B) (l : list A)
  : option (list B) :=
  match l with
  | [] => Some []
  | a :: l' => b <- f a ;; bs <- for_each f l' ;; Some (b :: bs)
  end.

(* ================================================================== *)
(** ** NumPy array constructors *)

Section Arrays.
Context {T : Type} {SC : Scalar T}.
Local Open Scope scalar_scope.

(** [numpy.arange(start, stop, step)] on floats: the length is
    [ceil((stop - start) / step)]; the first two entries are [start] and
    [start + step], and entry [i >= 2] is [start + i * delta] where
    [delta] is the difference of the first two entries as stored. *)
Definition arange (start stop step : T) : option (list T) :=
  len <- ceil ((stop - start) / step) ;;
  let next := start + step in
  let delta := next - start in
  Some (map (fun i => match i with
                      | O => start
                      | S O => next
                      | _ => start + of_int (Z.of_nat i) * delta
                      end)
            (seq 0 (Z.to_nat len))).

(** [y[-1] = v] *)
Definition set_last (l : list T) (v : T) : list T :=
  match l with
  | [] => []
  | _ => removelast l ++ [v]
  end.

(** [numpy.linspace(start, stop, num)] with the end point included:
    the ramp [0 .. num-1] scaled by [step = (stop - start) / (num - 1)]
    (or divided first when that step is zero), shifted by [start], its
    last entry overwritten with [stop]. *)
Definition linspace (start stop : T) (num : nat) : list T :=
  let dv := (Z.of_nat num - 1)%Z in
  let delta := stop - start in
  let ramp := map (fun i => of_int (Z.of_nat i)) (seq 0 num) in
  let y :=
    if (0 <? dv)%Z then
      let step := delta / of_int dv in
      if eqn step (of_int 0)
      then map (fun v => (v / of_int dv) * delta) ramp
      else map (fun v => v * step) ramp
    else map (fun v => v * delta) ramp in
  let y := map (fun v => v + start) y in
  if (1 <? Z.of_nat num)%Z then set_last y stop else y.

End Arrays.

(* ================================================================== *)
(** ** SciPy collaborators

    The interfaces of [scipy.optimize.fsolve], [scipy.integrate.quad] and
    [scipy.integrate.solve_ivp] as the source calls them. *)

Section Interfaces.
Variable T : Type.

(** [fsolve(func, x0)] yields the array of the last iterate.  MINPACK's
    termination flag [ier] (1: converged) is computed by the library and,
    as the source does not ask for the full output, only reported as a
    warning: the program never sees it. *)
Record FsolveOut : Type := {
  fs_x   : list T;
  fs_ier : Z
}.

Definition Fsolve : Type := (T -> T) -> T -> FsolveOut.

(** [quad(func, a, b)] yields the integral and an error estimate. *)
Definition Quad : Type := (T -> T) -> T -> T -> T * T.

(** The simulation state [(x, vx, y, vy)]. *)
Definition State : Type := (T * T * T * T)%type.

(** An event function with its [terminal] attribute. *)
Record Event : Type := {
  ev_fn       : T -> State -> T;
  ev_terminal : bool
}.

(** What [solve_ivp] returns: the sample times [t], the array [y] with
    one row per state component and one column per sample, and the
    termination [status] (0: end of span, 1: terminal event, -1: failed). *)
Record OdeResult : Type := {
  sol_t      : list T;
  sol_y      : list (list T);
  sol_status : Z
}.

(** [solve_ivp(fun, t_span, y0, events=..., max_step=...)] *)
Definition SolveIvp : Type :=
  (T -> State -> State) -> T * T -> State -> list Event -> T -> OdeResult.

End Interfaces.

Arguments Build_FsolveOut {T}.
Arguments Build_Event {T}.
Arguments Build_OdeResult {T}.
Arguments ev_fn {T}.
Arguments ev_terminal {T}.

(** *** the loop of [solve_ivp]

    SciPy's [solve_ivp], when no [t_eval] is given, keeps two lists that
    start as [ts = [t0]] and [ys = [y0]].  Each pass of its loop advances
    the integration method by one step and handles the events; a failed
    step ends the loop with [status = -1] and records nothing, any other
    pass appends one sample, the end of the step or the point where a
    terminal event fired, and ends the loop when the method has finished
    ([status = 0]) or a terminal event fired ([status = 1]).  The array
    [y] is [vstack(ys).T].  The integration method, with its step-size
    control and its search for the events, is left open: [pass_init]
    builds the method's state from the arguments of the call, [pass_step]
    is one pass. *)

Section Driver.
Variable T : Type.
Variable S : Type.

Inductive PassOutcome : Type :=
  | PassFailed
  | PassSample (s : S) (t : T) (y : State T) (status : option Z).

Record Method : Type := {
  pass_init : (T -> State T -> State T) -> T * T -> State T ->
              list (Event T) -> T -> S;
  pass_step : S -> PassOutcome
}.

(** The loop, for at most [n] passes; [None] while it is still
    running. *)
Fixpoint ivp_loop (n : nat) (step : S -> PassOutcome) (s : S)
  (ts : list T) (ys : list (State T))
  : option (list T * list (State T) * Z) :=
  match n with
  | O => None
  | Datatypes.S n' =>
      match step s with
      | PassFailed => Some (ts, ys, (-1)%Z)
      | PassSample s' t y (Some status) =>
          Some (ts ++ [t], ys ++ [y], status)
      | PassSample s' t y None => ivp_loop n' step s' (ts ++ [t]) (ys ++ [y])
      end
  end.

(** [vstack(ys).T]: one row per state component. *)
Definition stack_transposed (ys : list (State T)) : list (list T) :=
  [ map (fun y => let '(a, _, _, _) := y in a) ys;
    map (fun y => let '(_, b, _, _) := y in b) ys;
    map (fun y => let '(_, _, c, _) := y in c) ys;
    map (fun y => let '(_, _, _, d) := y in d) ys ].

Definition ivp_driver (m : Method) (n : nat)
  (f : T -> State T -> State T) (t_span : T * T) (y0 : State T)
  (events : list (Event T)) (max_step : T) : option (OdeResult T) :=
  match ivp_loop n (pass_step m)
                 (pass_init m f t_span y0 events max_step)
                 [fst t_span] [y0] with
  | Some (ts, ys, status) =>
      Some (Build_OdeResult ts (stack_transposed ys) status)
  | None => None
  end.

End Driver.

Arguments PassFailed {T S}.
Arguments PassSample {T S}.
Arguments Build_Method {T S}.

(* ================================================================== *)
(** ** Angular-speed-space solver (lines 27-50) *)

Record AngSpeedSpaceResult (T : Type) : Type := {
  area        : T;
  angles      : list T;
  lower_bound : list T;
  upper_bound : list T
}.

Section AngSpeedSpace.
Context {T : Type} {SC : Scalar T} {LM : Libm T}.
Variable fsolve : Fsolve T.
Variable quad : Quad T.
Local Open Scope scalar_scope.

(** The local functions of [get_ang_speed_space], lifted over the launch
    point they capture. *)
Definition f_far_squared (xpos ypos : T) : T -> T :=
  get_speed_func_squared (xpos, ypos) (rim_width / of_int 2, rim_height).

Definition f_near_squared (xpos ypos : T) : T -> T :=
  get_speed_func_squared (xpos, ypos) ((- rim_width) / of_int 2, rim_height).

Definition f_squared_diff (xpos ypos : T) : T -> T :=
  fun a => f_far_squared xpos ypos a - f_near_squared xpos ypos a.

Definition f_far (xpos ypos : T) : T -> T :=
  fun a => fsqrt (f_far_squared xpos ypos a).

Definition f_near (xpos ypos : T) : T -> T :=
  fun a => fsqrt (f_near_squared xpos ypos a).

Definition f_diff (xpos ypos : T) : T -> T :=
  fun a => f_far xpos ypos a - f_near xpos ypos a.

Definition get_ang_speed_space (xpos ypos : T)
  : option (AngSpeedSpaceResult T) :=
  intersection <-
    nth_error (fs_x (fsolve (f_squared_diff xpos ypos) (radians (of_int 85))))
              0 ;;
  let ang_lower_bound := pymax intersection (radians (of_int 5)) in
  let ang_upper_bound := radians (of_int 85) in
  let '(area, error) :=
    quad (f_diff xpos ypos) ang_lower_bound ang_upper_bound in
  let angles :=
    linspace (degrees ang_lower_bound) (degrees ang_upper_bound) 50 in
  let lower_bound_pts := map (f_near xpos ypos) (map radians angles) in
  let upper_bound_pts := map (f_far xpos ypos) (map radians angles) in
  Some {| area := area;
          angles := angles;
          lower_bound := lower_bound_pts;
          upper_bound := upper_bound_pts |}.

End AngSpeedSpace.

(* ================================================================== *)
(** ** Flight simulator (lines 53-121) *)

Record TrajectoryResult (T : Type) : Type := {
  result : Z;
  x      : list T;
  y      : list T
}.

Section Flight.
Context {T : Type} {SC : Scalar T}.
Variable solve_ivp : SolveIvp T.
Local Open Scope scalar_scope.

Definition flight_model (t : T) (s : State T) : State T :=
  let '(x, vx, y, vy) := s in
  let dx := vx in
  let dy := vy in
  let v_squared := sq vx + sq vy in
  let v := fsqrt v_squared in
  let sin_component := vy / v in
  let cos_component := vx / v in
  let Fd := lit 0.5 * air_density * cargo_area * drag_coeff * v_squared in
  let Fx := (- Fd) * cos_component in
  let Fy := (- Fd) * sin_component - cargo_mass * g in
  let dvx := Fx / cargo_mass in
  let dvy := Fy / cargo_mass in
  (dx, dvx, dy, dvy).

Definition hit_ground_fn (t : T) (s : State T) : T :=
  let '(x, vx, y, vy) := s in
  y.

Definition hit_rim_fn (t : T) (s : State T) : T :=
  let '(x, vx, y, vy) := s in
  let dist_to_rim :=
    pymin (x - (- rim_width) / of_int 2) (- (y - rim_height)) in
  dist_to_rim + cargo_radius.

Definition passed_rim_fn (t : T) (s : State T) : T :=
  let '(x, vx, y, vy) := s in
  x - rim_width / of_int 2.

(** Each event function carries [terminal = True]. *)
Definition hit_ground : Event T := Build_Event hit_ground_fn true.
Definition hit_rim : Event T := Build_Event hit_rim_fn true.
Definition passed_rim : Event T := Build_Event passed_rim_fn true.

(** The outcome code of a final abscissa (lines 111-115). *)
Definition outcome_code (x_last : T) : Z :=
  if x_last <? (- rim_width) / of_int 2 then (-1)%Z
  else if x_last >? rim_width / of_int 2 - cargo_radius then 1%Z
  else 0%Z.

Definition try_shot (s0 : State T) : option (TrajectoryResult T) :=
  let t_span := (of_int 0, lit 5.0) in
  let solution :=
    solve_ivp flight_model t_span s0 [hit_ground; hit_rim; passed_rim]
              (lit 0.05) in
  row0 <- nth_error (sol_y solution) 0 ;;
  x_last <- last_error row0 ;;
  let result := outcome_code x_last in
  row2 <- nth_error (sol_y solution) 2 ;;
  Some {| result := result; x := row0; y := row2 |}.

End Flight.

(* ================================================================== *)
(** ** Field aggregator (lines 152-171) *)

Record Heatmap (T : Type) : Type := {
  x_range   : list T;
  y_range   : list T;
  area_grid : list (list T)
}.

Section Field.
Context {T : Type} {SC : Scalar T} {LM : Libm T}.
Variable fsolve : Fsolve T.
Variable quad : Quad T.
Local Open Scope scalar_scope.

(** One cell of the grid (lines 162-163). *)
Definition heatmap_cell (xv yv : T) : option T :=
  area_data <- get_ang_speed_space fsolve quad xv yv ;;
  Some (area area_data * arctan2 rim_width (fabs xv)).

Definition generate_heatmap : option (Heatmap T) :=
  x_range <- arange (of_int (-6)) (of_int (-1)) (lit 0.2) ;;
  y_range <- arange (lit 0.2) (lit 1.25) (lit 0.2) ;;
  area_grid <-
    for_each (fun xv => for_each (fun yv => heatmap_cell xv yv) y_range)
             x_range ;;
  Some {| x_range := x_range; y_range := y_range; area_grid := area_grid |}.

End Field.

(* ================================================================== *)
(** ** Request handlers (lines 129-149)

    The JSON body of a request, read as a [dict] from keys to numbers;
    [jsonify] hands the handler's result on as it is. *)

Section Handlers.
Context {T : Type} {SC : Scalar T} {LM : Libm T}.
Variable solve_ivp : SolveIvp T.
Variable fsolve : Fsolve T.
Variable quad : Quad T.

Definition Json : Type := list (string * T).

(** [data[key]] on the members of the body in the order they are
    written: a name that is repeated keeps its last value when the body
    is parsed into the [dict]; a missing key raises. *)
Fixpoint getitem (data : Json) (key : string) : option T :=
  match data with
  | [] => None
  | (k, v) :: rest =>
      match getitem rest key with
      | Some later => Some later
      | None => if String.eqb k key then Some v else None
      end
  end.

Definition calculate_trajectory (data : Json)
  : option (TrajectoryResult T) :=
  x <- getitem data "x" ;;
  y <- getitem data "y" ;;
  vx <- getitem data "vx" ;;
  vy <- getitem data "vy" ;;
  let shoot_state := (x, vx, y, vy) in
  try_shot solve_ivp shoot_state.

Definition calculate_ang_speed (data : Json)
  : option (AngSpeedSpaceResult T) :=
  x <- getitem data "x" ;;
  y <- getitem data "y" ;;
  get_ang_speed_space fsolve quad x y.

End Handlers.

(* ================================================================== *)
(** ** Reference collaborators

    Plain binary64 stand-ins for libm and for the three SciPy routines,
    written only so that the program can be run inside Rocq on concrete
    inputs.  They meet the interfaces above; they are not SciPy's
    algorithms and no statement below depends on their accuracy. *)

Module Ref.

Local Open Scope float_scope.

(** Partial sums of an alternating power series: from [term] of degree
    [k], the next term is [- term * x2 / ((k+1)(k+2))]. *)
Fixpoint trig_series (n : nat) (k : Z) (term acc x2 : float) : float :=
  match n with
  | O => acc
  | S n' =>
      let term' := - term * x2 / F64.of_Z ((k + 1) * (k + 2)) in
      trig_series n' (k + 2) term' (acc + term') x2
  end.

Definition cos (a : float) : float := trig_series 14 0 1 1 (a * a).
Definition sin (a : float) : float := trig_series 14 1 a a (a * a).
Definition tan (a : float) : float := sin a / cos a.

(** Partial sums of [z - z^3/3 + z^5/5 - ...]. *)
Fixpoint atan_series (n : nat) (k : Z) (pw acc z2 : float) : float :=
  match n with
  | O => acc
  | S n' =>
      let pw' := - pw * z2 in
      atan_series n' (k + 2) pw' (acc + pw' / F64.of_Z (k + 2)) z2
  end.

(** Three argument halvings [atan z = 2 atan (z / (1 + sqrt (1 + z^2)))],
    then the series. *)
Definition atan (z : float) : float :=
  let half u := u / (1 + PrimFloat.sqrt (1 + u * u)) in
  let u := half (half (half z)) in
  8 * atan_series 12 1 u u (u * u).

Definition arctan2 (b a : float) : float :=
  if 0 <? a then atan (b / a)
  else if a <? 0 then
    (if b <? 0 then atan (b / a) - F64.pi else atan (b / a) + F64.pi)
  else if 0 <? b then F64.pi / 2
  else if b <? 0 then - F64.pi / 2
  else 0.

Definition libm : Libm float := @Build_Libm float tan cos arctan2.

(** A secant iteration from the seed, at most [n] steps; [ier = 1] when
    the residual falls below [1e-9], [ier = 2] when the budget runs out. *)
Fixpoint secant (n : nat) (f : float -> float) (a b : float)
  : FsolveOut float :=
  let fb := f b in
  if PrimFloat.abs fb <? 1e-9 then Build_FsolveOut [b] 1
  else
    match n with
    | O => Build_FsolveOut [b] 2
    | S n' => secant n' f b (b - fb * (b - a) / (fb - f a))
    end.

Definition fsolve : Fsolve float :=
  fun f seed => secant 60 f (seed - 0.01) seed.

(** A root finder whose iteration has broken down: it reports NaN,
    flagged as not converged. *)
Definition fsolve_nan : Fsolve float :=
  fun _ _ => Build_FsolveOut [nan] 5.

(** A root finder that gives up at once: it reports an iterate a
    hundredth of a radian above the seed, flagged as not converged
    ([ier = 5]: the iteration is not making good progress). *)
Definition fsolve_stalled : Fsolve float :=
  fun _ seed => Build_FsolveOut [seed + 0.01] 5.

(** Composite Simpson rule on [2 n] panels. *)
Definition simpson (n : nat) (f : float -> float) (a b : float) : float :=
  let h := (b - a) / F64.of_Z (2 * Z.of_nat n) in
  let at_ i := f (a + F64.of_Z (Z.of_nat i) * h) in
  let odd := fold_left (fun s i => s + at_ (2 * i + 1)%nat) (seq 0 n) 0 in
  let even := fold_left (fun s i => s + at_ (2 * i)%nat) (seq 1 (n - 1)) 0 in
  h / 3 * (f a + 4 * odd + 2 * even + f b).

Definition quad : Quad float :=
  fun f a b =>
    let fine := simpson 64 f a b in
    (fine, PrimFloat.abs (fine - simpson 32 f a b) / 15).

(** [s + h * k] on states. *)
Definition axpy (s : State float) (h : float) (k : State float)
  : State float :=
  let '(s1, s2, s3, s4) := s in
  let '(k1, k2, k3, k4) := k in
  (s1 + h * k1, s2 + h * k2, s3 + h * k3, s4 + h * k4).

(** One classical Runge-Kutta step of size [h]. *)
Definition rk4 (f : float -> State float -> State float)
  (t : float) (s : State float) (h : float) : State float :=
  let k1 := f t s in
  let k2 := f (t + h / 2) (axpy s (h / 2) k1) in
  let k3 := f (t + h / 2) (axpy s (h / 2) k2) in
  let k4 := f (t + h) (axpy s h k3) in
  axpy (axpy (axpy (axpy s (h / 6) k1) (h / 3) k2) (h / 3) k3) (h / 6) k4.

(** A terminal event fires between two states when its function changes
    sign (or touches zero) from one to the other. *)
Definition fires (ev : Event float) (t0 : float) (s0 : State float)
  (t1 : float) (s1 : State float) : bool :=
  let g0 := ev_fn ev t0 s0 in
  let g1 := ev_fn ev t1 s1 in
  ev_terminal ev &&
  (((g0 <=? 0) && (0 <=? g1)) || ((0 <=? g0) && (g1 <=? 0))).

(** Step halving: the fraction of the step at which an event first
    fires, to [n] bisections. *)
Fixpoint locate (n : nat) (f : float -> State float -> State float)
  (evs : list (Event float)) (t : float) (s : State float) (h : float)
  (lo hi : float) : float :=
  match n with
  | O => hi
  | S n' =>
      let mid := (lo + hi) / 2 in
      if existsb (fun ev => fires ev t s (t + mid * h) (rk4 f t s (mid * h)))
                 evs
      then locate n' f evs t s h lo mid
      else locate n' f evs t s h mid hi
  end.

(** Fixed steps of size [h] until the span is exhausted ([status 0]) or a
    terminal event fires ([status 1]); the samples, last first. *)
Fixpoint march (n : nat) (f : float -> State float -> State float)
  (evs : list (Event float)) (h t_end t : float) (s : State float)
  (acc : list (float * State float)) : list (float * State float) * Z :=
  match n with
  | O => (acc, 0%Z)
  | S n' =>
      if t_end <=? t then (acc, 0%Z)
      else
        let h' := if t_end - t <? h then t_end - t else h in
        let s' := rk4 f t s h' in
        if existsb (fun ev => fires ev t s (t + h') s') evs then
          let th := locate 40 f evs t s h' 0 1 in
          ((t + th * h', rk4 f t s (th * h')) :: acc, 1%Z)
        else march n' f evs h t_end (t + h') s' ((t + h', s') :: acc)
  end.

(** The same scheme as one pass of the loop of [solve_ivp]: the state of
    the method is the call's arguments with the current time and state. *)
Definition MethodState : Type :=
  ((float -> State float -> State float) * list (Event float)
   * float * float * float * State float)%type.

Definition method : Method float MethodState :=
  Build_Method
    (fun f t_span s0 evs max_step =>
       (f, evs, max_step, snd t_span, fst t_span, s0))
    (fun st =>
       let '(f, evs, h, t_end, t, s) := st in
       let h' := if t_end - t <? h then t_end - t else h in
       let s' := rk4 f t s h' in
       if existsb (fun ev => fires ev t s (t + h') s') evs then
         let th := locate 40 f evs t s h' 0 1 in
         PassSample st (t + th * h') (rk4 f t s (th * h')) (Some 1%Z)
       else
         PassSample (f, evs, h, t_end, t + h', s') (t + h') s'
                    (if t_end <=? t + h' then Some 0%Z else None)).

Definition solve_ivp : SolveIvp float :=
  fun f t_span s0 evs max_step =>
    let '(t0, t_end) := t_span in
    let '(samples, status) :=
      march 1000 f evs max_step t_end t0 s0 [(t0, s0)] in
    let pts := rev samples in
    {| sol_t := map fst pts;
       sol_y := [ map (fun p => let '(a, _, _, _) := snd p in a) pts;
                  map (fun p => let '(_, b, _, _) := snd p in b) pts;
                  map (fun p => let '(_, _, c, _) := snd p in c) pts;
                  map (fun p => let '(_, _, _, d) := snd p in d) pts ];
       sol_status := status |}.

End Ref.

(** Collaborators in exact arithmetic, for running the solver there: a
    root finder that answers a given angle, a quadrature that answers
    zero. *)
Module ExactRef.

Definition fsolve_at (v : R) : Fsolve R :=
  fun _ _ => Build_FsolveOut [v] 1.

Definition quad_zero : Quad R := fun _ _ _ => (0%R, 0%R).

End ExactRef.

(* ================================================================== *)
(** ** Specification vocabulary *)

Unset Implicit Arguments.

(** A solution whose array [y] has one row per state component, the
    rows of one common length, and the initial state as first column. *)
Definition starts_at {T : Type} (s0 : State T) (sol : OdeResult T) : Prop :=
  let '(x0, vx0, y0, vy0) := s0 in
  exists c0 c1 c2 c3,
    sol_y sol = [x0 :: c0; vx0 :: c1; y0 :: c2; vy0 :: c3] /\
    length c0 = length c1 /\ length c1 = length c2 /\ length c2 = length c3.

(** The call [try_shot] makes to the integrator. *)
Definition shot_solution {T : Type} {SC : Scalar T}
  (solve_ivp : SolveIvp T) (s0 : State T) : OdeResult T :=
  solve_ivp flight_model (of_int 0, lit 5.0) s0
            [hit_ground; hit_rim; passed_rim] (lit 0.05).

(** The launch state of the specification's scenario:
    [x = -3, vx = 6, y = 0.5, vy = 7]. *)
Definition scenario : State float := (-3, 6, 0.5, 7)%float.

(** A ball released at rest at the same place. *)
Definition at_rest : State float := (-3, 0, 0.5, 0)%float.

(** The decimal sequence [first, first + step, ...] of [n] literals,
    each read as the Python parser reads it. *)
Definition literal_sequence (first step : Q) (n : nat) : list float :=
  map (fun i => lit (first + inject_Z (Z.of_nat i) * step)%Q) (seq 0 n).

(** Two sequences of one length that agree entry by entry within [tol]. *)
Definition within (tol : float) (l l' : list float) : bool :=
  Nat.eqb (length l) (length l') &&
  forallb (fun p => PrimFloat.leb (PrimFloat.abs (fst p - snd p)%float) tol)
          (combine l l').

(** The field the reference collaborators produce, computed once. *)
Definition ref_heatmap : option (Heatmap float) :=
  Eval vm_compute in
    generate_heatmap (LM := Ref.libm) Ref.fsolve Ref.quad.

(** The drag-free parabola: the height, at abscissa [x1], of a projectile
    launched from [(x0, y0)] at angle [a] with squared speed [v2]. *)
Definition parabola_height (x0 y0 a v2 x1 : R) : R :=
  (y0 + (x1 - x0) * Rtrigo1.tan a
   - g * (x1 - x0) ^ 2 / (2 * v2 * Rtrigo_def.cos a ^ 2))%R.

(** Horizontal offsets of the far and near rim edges from a launch
    abscissa. *)
Definition far_offset (xpos : R) : R := (rim_width / 2 - xpos)%R.
Definition near_offset (xpos : R) : R := (- rim_width / 2 - xpos)%R.

(** The rate of change of the mechanical energy
    [m (vx^2 + vy^2) / 2 + m g y] along a state derivative. *)
Definition energy_rate (s ds : State R) : R :=
  let '(_, vx, _, vy) := s in
  let '(dx, dvx, dy, dvy) := ds in
  (cargo_mass * (vx * dvx + vy * dvy) + cargo_mass * g * dy)%R.

(* ================================================================== *)
(** ** Basic facts *)

Lemma bind_Some {A B : Type} (o : option A) (k : A -> option B) (b : B) :
  bind o k = Some b -> exists a, o = Some a /\ k a = Some b.
Proof.
  destruct o as [a|]; simpl; intros E; [eauto | discriminate].
Qed.

Lemma bind_None {A B : Type} (o : option A) (k : A -> option B) :
  bind o k = None -> o = None \/ exists a, o = Some a /\ k a = None.
Proof.
  destruct o as [a|]; simpl; intros E; [right; eauto | now left].
Qed.

Section ForEach.
Context {A B : Type}.

Lemma for_each_length (f : A -> option B) (l : list A) (bs : list B) :
  for_each f l = Some bs -> length bs = length l.
Proof.
  revert bs; induction l as [|a l IH]; simpl; intros bs E.
  - now inversion E.
  - apply bind_Some in E as (b & _ & E).
    apply bind_Some in E as (bs' & E' & E).
    inversion E; subst; simpl; f_equal; auto.
Qed.

Lemma for_each_nth (f : A -> option B) (l : list A) (bs : list B) :
  for_each f l = Some bs ->
  forall i a, nth_error l i = Some a ->
  exists b, nth_error bs i = Some b /\ f a = Some b.
Proof.
  revert bs; induction l as [|a0 l IH]; simpl; intros bs E i a Hi.
  - destruct i; discriminate.
  - apply bind_Some in E as (b & Hb & E).
    apply bind_Some in E as (bs' & E' & E).
    inversion E; subst; clear E.
    destruct i as [|i]; simpl in *.
    + inversion Hi; subst; eauto.
    + eauto.
Qed.

Lemma for_each_total (f : A -> option B) (l : list A) :
  (forall a, In a l -> f a <> None) -> exists bs, for_each f l = Some bs.
Proof.
  induction l as [|a l IH]; simpl; intros Hf; [eauto|].
  destruct (f a) as [b|] eqn:Ea; [| exfalso; apply (Hf a); auto].
  destruct IH as (bs & ->); [intros; apply Hf; auto|].
  simpl; eauto.
Qed.

End ForEach.

(** *** binary64 *)

(** A Leibniz disequality of two floats from their IEEE comparison. *)
Lemma float_neq (a b : float) : PrimFloat.eqb a b = false ->
  PrimFloat.eqb a a = true -> a <> b.
Proof.
  intros Hab Haa E; rewrite <- E in Hab; congruence.
Qed.

(** No binary64 value is below the near rim edge and beyond the far
    threshold at once. *)
Lemma undershoot_excludes_overshoot (v : float) :
  (v <? (- rim_width) / of_int 2)%sc = true ->
  (v >? rim_width / of_int 2 - cargo_radius)%sc = true -> False.
Proof.
  set (lo := ((- rim_width) / of_int 2)%sc).
  set (hi := (rim_width / of_int 2 - cargo_radius)%sc).
  vm_compute in lo, hi; subst lo hi.
  cbn [lt float_scalar].
  rewrite 2!FloatAxioms.ltb_spec.
  match goal with
  | |- SFltb _ (Prim2SF ?c) = true -> SFltb (Prim2SF ?d) _ = true -> _ =>
      let sc := eval vm_compute in (Prim2SF c) in
      let sd := eval vm_compute in (Prim2SF d) in
      change (Prim2SF c) with sc; change (Prim2SF d) with sd
  end.
  destruct (Prim2SF v) as [s | s | | s m e]; try destruct s;
    intros; discriminate.
Qed.

(** The literals of the source are the binary64 values the Python
    parser reads. *)
Example literals_as_parsed :
  (g : float) = 9.81%float /\
  (rim_width / of_int 2)%sc = 0.52%float /\
  (rim_height : float) = 1.83%float /\
  (cargo_radius : float) = 0.075%float /\
  (rim_width / of_int 2 - cargo_radius)%sc = 0.445%float.
Proof. repeat split; reflexivity. Qed.

(* ================================================================== *)
(** ** Flight simulator *)

(** C1.  For every run of [try_shot] that returns, the outcome code is a
    function of the last recorded abscissa alone: it is [-1] exactly when
    that abscissa is below [-rim_half_width], [1] exactly when it is
    above [rim_half_width - cargo_radius], and [0] otherwise; the
    comparison is strict, so a path ending exactly at
    [rim_half_width - cargo_radius] is coded [0] and one ending at the
    next binary64 value above it is coded [1]. *)
Theorem try_shot_outcome_by_final_x :
  forall (solve_ivp : SolveIvp float) (s0 : State float)
         (r : TrajectoryResult float),
    try_shot solve_ivp s0 = Some r ->
    exists x_last : float,
      last_error (x r) = Some x_last /\
      (result r = (-1)%Z <->
         (x_last <? - (rim_width / of_int 2))%sc = true) /\
      (result r = 1%Z <->
         (x_last >? rim_width / of_int 2 - cargo_radius)%sc = true) /\
      (result r = 0%Z <->
         (x_last <? - (rim_width / of_int 2))%sc = false /\
         (x_last >? rim_width / of_int 2 - cargo_radius)%sc = false) /\
      (x_last = (rim_width / of_int 2 - cargo_radius)%sc -> result r = 0%Z) /\
      (x_last = next_up (rim_width / of_int 2 - cargo_radius)%sc ->
       result r = 1%Z).
Proof.
  intros solve_ivp s0 r E. unfold try_shot in E.
  apply bind_Some in E as (row0 & _ & E).
  apply bind_Some in E as (x_last & Hlast & E).
  apply bind_Some in E as (row2 & _ & E).
  exists x_last.
  replace (result r) with (outcome_code x_last) by (inversion E; reflexivity).
  replace (x r) with row0 by (inversion E; reflexivity).
  split; [exact Hlast|]. clear E.
  pose proof (undershoot_excludes_overshoot x_last) as Hex.
  unfold outcome_code.
  assert (Heq : (- (@rim_width float _ / of_int 2))%sc
                = ((- rim_width) / of_int 2)%sc) by reflexivity.
  rewrite Heq; clear Heq.
  pose (lo := (@neg float _ rim_width / of_int 2)%sc).
  pose (hi := (@rim_width float _ / of_int 2 - cargo_radius)%sc).
  assert (Hb0 : (hi <? lo)%sc = false /\ (hi >? hi)%sc = false)
    by (split; vm_compute; reflexivity).
  assert (Hb1 : (next_up hi <? lo)%sc = false /\ (next_up hi >? hi)%sc = true)
    by (split; vm_compute; reflexivity).
  destruct Hb0 as [Hb0 Hb0']; destruct Hb1 as [Hb1 Hb1'].
  fold lo hi in Hex |- *.
  destruct (x_last <? lo)%sc eqn:Hlo; destruct (x_last >? hi)%sc eqn:Hhi.
  - exfalso; apply Hex; reflexivity.
  - repeat split; intros; subst; try congruence; try tauto;
      try discriminate.
    destruct H; discriminate.
  - repeat split; intros; subst; try congruence; try tauto;
      try discriminate.
    destruct H; discriminate.
  - repeat split; intros; subst; try congruence; try tauto;
      try discriminate.
Qed.

(** The scenario run, with the reference integrator, is such a run. *)
Lemma try_shot_outcome_by_final_x_witness :
  exists r : TrajectoryResult float,
    try_shot Ref.solve_ivp scenario = Some r /\
    exists x_last : float,
      last_error (x r) = Some x_last /\
      (result r = (-1)%Z <->
         (x_last <? - (rim_width / of_int 2))%sc = true) /\
      (result r = 1%Z <->
         (x_last >? rim_width / of_int 2 - cargo_radius)%sc = true) /\
      (result r = 0%Z <->
         (x_last <? - (rim_width / of_int 2))%sc = false /\
         (x_last >? rim_width / of_int 2 - cargo_radius)%sc = false) /\
      (x_last = (rim_width / of_int 2 - cargo_radius)%sc -> result r = 0%Z) /\
      (x_last = next_up (rim_width / of_int 2 - cargo_radius)%sc ->
       result r = 1%Z).
Proof.
  destruct (try_shot Ref.solve_ivp scenario) as [r|] eqn:E.
  - exists r. split; [reflexivity|].
    exact (try_shot_outcome_by_final_x Ref.solve_ivp scenario r E).
  - vm_compute in E. discriminate.
Defined.

(** Whatever the integrator, a path [try_shot] returns is not empty: the
    code has read its last entry. *)
Lemma try_shot_path_nonempty {T : Type} {SC : Scalar T}
  (solve_ivp : SolveIvp T) (s0 : State T) (r : TrajectoryResult T) :
  try_shot solve_ivp s0 = Some r -> x r <> [].
Proof.
  intros E. unfold try_shot in E.
  apply bind_Some in E as (row0 & _ & E).
  apply bind_Some in E as (x_last & Hlast & E).
  apply bind_Some in E as (row2 & _ & E).
  inversion E; subst r; cbn [x].
  destruct row0; [discriminate Hlast | discriminate].
Qed.

(** The loop of [solve_ivp] only ever appends to its two lists, one
    sample to each at a time. *)
Lemma ivp_loop_appends {T S : Type} (step : S -> PassOutcome T S) (n : nat) :
  forall (s : S) (ts : list T) (ys : list (State T))
         (ts' : list T) (ys' : list (State T)) (status : Z),
    ivp_loop n step s ts ys = Some (ts', ys', status) ->
    exists (more_t : list T) (more_y : list (State T)),
      ts' = ts ++ more_t /\ ys' = ys ++ more_y /\
      length more_t = length more_y.
Proof.
  induction n as [|n IH]; intros s ts ys ts' ys' status E; simpl in E;
    [discriminate|].
  destruct (step s) as [|s' t y [st|]].
  - inversion E; subst. exists [], []. now rewrite !app_nil_r.
  - inversion E; subst. exists [t], [y]. auto.
  - apply IH in E as (mt & my & -> & -> & Hlen).
    exists (t :: mt), (y :: my). rewrite <- !app_assoc. simpl. auto.
Qed.

(** So what the loop returns begins at the initial state. *)
Lemma ivp_driver_starts_at {T S : Type} (m : Method T S) (n : nat)
  (f : T -> State T -> State T) (t_span : T * T) (s0 : State T)
  (events : list (Event T)) (max_step : T) (sol : OdeResult T) :
  ivp_driver m n f t_span s0 events max_step = Some sol ->
  starts_at s0 sol.
Proof.
  unfold ivp_driver. intros E.
  destruct (ivp_loop _ _ _ _ _) as [[[ts ys] status]|] eqn:El;
    [|discriminate].
  inversion E; subst sol; clear E.
  apply ivp_loop_appends in El as (mt & my & _ & -> & _).
  destruct s0 as [[[x0 vx0] y0] vy0]. unfold starts_at.
  cbn [sol_y app].
  exists (map (fun y => let '(a, _, _, _) := y in a) my),
         (map (fun y => let '(_, b, _, _) := y in b) my),
         (map (fun y => let '(_, _, c, _) := y in c) my),
         (map (fun y => let '(_, _, _, d) := y in d) my).
  split; [reflexivity|]. now rewrite !length_map.
Qed.

(** C10.  For every initial state on which the simulation returns, that
    is, whenever the loop of [solve_ivp], around whatever integration
    method, returns within some number of passes the solution
    [try_shot] receives, the [x] and [y] sequences of the result have
    the same length, are not empty, and begin at the initial position. *)
Theorem try_shot_path_starts_at_launch :
  forall (T : Type) (SC : Scalar T) (S : Type) (m : Method T S) (n : nat)
         (solve_ivp : SolveIvp T) (x0 vx0 y0 vy0 : T),
    ivp_driver m n flight_model (of_int 0, lit 5.0) (x0, vx0, y0, vy0)
               [hit_ground; hit_rim; passed_rim] (lit 0.05)
    = Some (shot_solution solve_ivp (x0, vx0, y0, vy0)) ->
    exists r : TrajectoryResult T,
      try_shot solve_ivp (x0, vx0, y0, vy0) = Some r /\
      length (x r) = length (y r) /\
      x r <> [] /\ y r <> [] /\
      hd_error (x r) = Some x0 /\ hd_error (y r) = Some y0.
Proof.
  intros T SC S m n solve_ivp x0 vx0 y0 vy0 Hrun.
  apply ivp_driver_starts_at in Hrun
    as (c0 & c1 & c2 & c3 & Hy & L01 & L12 & L23).
  assert (E : try_shot solve_ivp (x0, vx0, y0, vy0)
              = Some {| result := outcome_code (last c0 x0);
                        x := x0 :: c0; y := y0 :: c2 |}).
  { unfold try_shot. fold (shot_solution solve_ivp (x0, vx0, y0, vy0)).
    rewrite Hy. reflexivity. }
  eexists. split; [exact E|].
  pose proof (try_shot_path_nonempty solve_ivp _ _ E) as Hne.
  cbn [x y length hd_error] in *.
  repeat split; try assumption; try discriminate. congruence.
Qed.

(** The scenario: the reference integrator is the loop around the
    reference method, and returns within a thousand passes. *)
Lemma try_shot_path_starts_at_launch_witness :
  exists r : TrajectoryResult float,
    try_shot Ref.solve_ivp (-3, 6, 0.5, 7)%float = Some r /\
    length (x r) = length (y r) /\
    x r <> [] /\ y r <> [] /\
    hd_error (x r) = Some (-3)%float /\ hd_error (y r) = Some 0.5%float.
Proof.
  apply (try_shot_path_starts_at_launch float float_scalar
           Ref.MethodState Ref.method 1000 Ref.solve_ivp).
  vm_compute. reflexivity.
Defined.

(** C4, as the code has it.  The flight model has no zero-speed guard:
    for a ball at rest, at any place and time, the unit-velocity
    components are computed as [0/0] and both accelerations are NaN.
    [try_shot] screens nothing either: the path it returns is rows 0 and
    2 of the integrator's array, as they are. *)
Theorem flight_model_unguarded_at_rest :
  forall (solve_ivp : SolveIvp float) (s0 : State float)
         (r : TrajectoryResult float) (t px py : float),
    try_shot solve_ivp s0 = Some r ->
    flight_model t (px, 0, py, 0)%float = (0, nan, 0, nan)%float /\
    nth_error (sol_y (shot_solution solve_ivp s0)) 0 = Some (x r) /\
    nth_error (sol_y (shot_solution solve_ivp s0)) 2 = Some (y r).
Proof.
  intros solve_ivp s0 r t px py E. split; [reflexivity|].
  unfold try_shot in E. fold (shot_solution solve_ivp s0) in E.
  apply bind_Some in E as (row0 & H0 & E).
  apply bind_Some in E as (x_last & _ & E).
  apply bind_Some in E as (row2 & H2 & E).
  inversion E; subst r; cbn [x y]. now split.
Qed.

(** With the reference integrator, an explicit Runge-Kutta scheme, the
    run from rest returns. *)
Lemma flight_model_unguarded_at_rest_witness :
  exists r : TrajectoryResult float,
    try_shot Ref.solve_ivp at_rest = Some r /\
    flight_model 0%float (-3, 0, 0.5, 0)%float = (0, nan, 0, nan)%float /\
    nth_error (sol_y (shot_solution Ref.solve_ivp at_rest)) 0 = Some (x r) /\
    nth_error (sol_y (shot_solution Ref.solve_ivp at_rest)) 2 = Some (y r).
Proof.
  destruct (try_shot Ref.solve_ivp at_rest) as [r|] eqn:E.
  - exists r. split; [reflexivity|].
    exact (flight_model_unguarded_at_rest Ref.solve_ivp at_rest r
             0%float (-3)%float 0.5%float E).
  - vm_compute in E. discriminate.
Defined.

(** C4, as the claim has it, fails: at rest the equations of motion
    divide zero by zero, and stepping them with the reference integrator
    puts NaN into every sample of the returned path after the first. *)
Lemma flight_model_nan_at_rest :
  flight_model 0%float at_rest = (0, nan, 0, nan)%float /\
  exists r : TrajectoryResult float,
    try_shot Ref.solve_ivp at_rest = Some r /\
    nth_error (x r) 1 = Some nan /\ nth_error (y r) 1 = Some nan.
Proof.
  split; [reflexivity|].
  destruct (try_shot Ref.solve_ivp at_rest) as [r|] eqn:E;
    vm_compute in E; [|discriminate].
  exists r. split; [reflexivity|].
  inversion E; subst r; split; reflexivity.
Qed.

(** *** exact arithmetic *)

Section ExactFacts.
Local Open Scope R_scope.

Lemma exact_constants :
  @g R _ = 9.81 /\ @rim_width R _ = 1.04 /\ @rim_height R _ = 1.83 /\
  @cargo_radius R _ = 0.075 /\ @lit R _ 0.5%Q = 0.5.
Proof.
  unfold g, rim_width, rim_height, cargo_radius; cbn; unfold Q2R; cbn.
  repeat split; lra.
Qed.

Lemma pymin_Rmin (a b : R) : pymin a b = Rmin a b.
Proof.
  unfold pymin, Rmin; cbn; unfold Exact.lt.
  destruct (Rlt_dec b a), (Rle_dec a b); lra.
Qed.

Lemma pymax_Rmax (a b : R) : pymax a b = Rmax a b.
Proof.
  unfold pymax, Rmax; cbn; unfold Exact.lt.
  destruct (Rlt_dec a b), (Rle_dec a b); lra.
Qed.

End ExactFacts.

(** C7.  The rim-collision event is terminal and its function is the
    heuristic [min(x - (-rim_half_width), rim_height - y) + cargo_radius]:
    in exact arithmetic it is that minimum, in binary64 it is the same
    expression with the signs as the source writes them.  It is not a
    Euclidean distance: three metres past the near edge and four below
    the rim height it is [3 + cargo_radius], where the distance to the
    near rim point is five. *)
Theorem hit_rim_is_min_heuristic :
  (forall t px vx py vy : R,
     ev_fn hit_rim t (px, vx, py, vy)
     = (Rmin (px - - (rim_width / 2)) (rim_height - py) + cargo_radius)%R) /\
  (forall t px vx py vy : float,
     ev_fn hit_rim t (px, vx, py, vy)
     = (pymin (px - (-0.52)) (- (py - 1.83)) + 0.075)%float) /\
  ev_terminal (@hit_rim R _) = true /\
  ev_terminal (@hit_rim float _) = true /\
  (let px := (- (rim_width / 2) + 3)%R in
   let py := (rim_height - 4)%R in
   ev_fn hit_rim 0%R (px, 0, py, 0)%R = (3 + cargo_radius)%R /\
   (sqrt ((px - - (rim_width / 2)) ^ 2 + (rim_height - py) ^ 2)
    + cargo_radius = 5 + cargo_radius)%R).
Proof.
  assert (Hmin : forall t px vx py vy : R,
     ev_fn hit_rim t (px, vx, py, vy)
     = (Rmin (px - - (rim_width / 2)) (rim_height - py) + cargo_radius)%R).
  { intros t px vx py vy. cbn [ev_fn hit_rim hit_rim_fn].
    rewrite pymin_Rmin. cbn [add sub neg div of_int real_scalar].
    f_equal. f_equal; lra. }
  split; [exact Hmin|]. split; [reflexivity|].
  split; [reflexivity|]. split; [reflexivity|].
  cbv zeta. split.
  - rewrite Hmin. destruct exact_constants as (_ & Hw & Hh & _).
    rewrite Hw, Hh. unfold Rmin.
    destruct (Rle_dec _ _); lra.
  - f_equal.
    replace ((- (rim_width / 2) + 3 - - (rim_width / 2)) ^ 2
             + (rim_height - (rim_height - 4)) ^ 2)%R with (5 * 5)%R by ring.
    apply sqrt_square; lra.
Qed.

(* ================================================================== *)
(** ** Required-speed model *)

(** C2.  In exact arithmetic, at every angle whose cosine is not zero
    and for which the denominator [y0 - y1 + (x1 - x0) tan a] is not
    zero, the function built by [get_speed_func_squared] has the value
    [(g/2) ((x1 - x0)/cos a)^2 / (y0 - y1 + (x1 - x0) tan a)]. *)
Theorem required_speed_formula :
  forall x0 y0 x1 y1 a : R,
    Rtrigo_def.cos a <> 0%R ->
    (y0 - y1 + (x1 - x0) * Rtrigo1.tan a <> 0)%R ->
    get_speed_func_squared (x0, y0) (x1, y1) a
    = ((g / 2) * ((x1 - x0) / Rtrigo_def.cos a) ^ 2
       / (y0 - y1 + (x1 - x0) * Rtrigo1.tan a))%R.
Proof.
  intros x0 y0 x1 y1 a Hc Hd.
  unfold get_speed_func_squared, sq.
  cbn [add sub mul div lit tan cos real_scalar real_libm].
  unfold Q2R; cbn [Qnum Qden].
  field. split; assumption.
Qed.

(** From one metre below the far rim point and three to its left, at
    45 degrees. *)
Lemma required_speed_formula_witness :
  get_speed_func_squared (-3, 1)%R (0, 2)%R (PI / 4)%R
  = ((g / 2) * ((0 - -3) / Rtrigo_def.cos (PI / 4)) ^ 2
     / (1 - 2 + (0 - -3) * Rtrigo1.tan (PI / 4)))%R.
Proof.
  apply required_speed_formula.
  - rewrite cos_PI4. apply Rgt_not_eq.
    apply Rdiv_lt_0_compat; [lra | apply sqrt_lt_R0; lra].
  - rewrite tan_PI4. lra.
Defined.

(* ================================================================== *)
(** ** NumPy arrays *)

Section ArrayFacts.
Context {T : Type} {SC : Scalar T}.

Lemma set_last_length (l : list T) (v : T) :
  length (set_last l v) = length l.
Proof.
  destruct l as [|a l]; [reflexivity|].
  unfold set_last. rewrite length_app, removelast_firstn_len, length_firstn.
  cbn [length]. lia.
Qed.

Lemma set_last_last (l : list T) (v d : T) :
  l <> [] -> last (set_last l v) d = v.
Proof.
  destruct l as [|a l]; [congruence|]. intros _.
  unfold set_last. apply last_last.
Qed.

Lemma linspace_length (start stop : T) (num : nat) :
  length (linspace start stop num) = num.
Proof.
  unfold linspace.
  destruct (1 <? Z.of_nat num)%Z; [rewrite set_last_length|];
    destruct (0 <? Z.of_nat num - 1)%Z;
    try destruct (eqn _ _);
    now rewrite !length_map, length_seq.
Qed.

End ArrayFacts.

(* ================================================================== *)
(** ** Angular-speed-space solver *)

(** C3.  For every launch point, once the root finder, seeded at 85
    degrees on the difference of the two squared required-speed curves
    aimed at [(+rim_half_width, rim_height)] and
    [(-rim_half_width, rim_height)], hands back [intersection], the
    angle window is [lower = max(intersection, radians 5)],
    [upper = radians 85]: the area is the quadrature of the speed gap
    over that window and the sampled angles span it. *)
Theorem ang_window_construction :
  forall (T : Type) (SC : Scalar T) (LM : Libm T)
         (fsolve : Fsolve T) (quad : Quad T) (xpos ypos intersection : T),
    nth_error
      (fs_x (fsolve
               (fun a =>
                  get_speed_func_squared (xpos, ypos)
                    (rim_width / of_int 2, rim_height) a
                  - get_speed_func_squared (xpos, ypos)
                      ((- rim_width) / of_int 2, rim_height) a)%sc
               (radians (of_int 85)))) 0 = Some intersection ->
    let lower := pymax intersection (radians (of_int 5)) in
    let upper := radians (of_int 85) in
    exists r : AngSpeedSpaceResult T,
      get_ang_speed_space fsolve quad xpos ypos = Some r /\
      area r = fst (quad (f_diff xpos ypos) lower upper) /\
      angles r = linspace (degrees lower) (degrees upper) 50 /\
      lower_bound r = map (f_near xpos ypos) (map radians (angles r)) /\
      upper_bound r = map (f_far xpos ypos) (map radians (angles r)) /\
      last (angles r) (of_int 0) = degrees upper.
Proof.
  intros T SC LM fsolve quad xpos ypos i Hi lower upper.
  unfold get_ang_speed_space.
  change (f_squared_diff xpos ypos)
    with (fun a =>
            get_speed_func_squared (xpos, ypos)
              (rim_width / of_int 2, rim_height) a
            - get_speed_func_squared (xpos, ypos)
                ((- rim_width) / of_int 2, rim_height) a)%sc.
  rewrite Hi. cbn [bind]. fold lower upper.
  destruct (quad (f_diff xpos ypos) lower upper) as [ar er].
  eexists. split; [reflexivity|]. cbn [area angles lower_bound upper_bound fst].
  repeat split.
  unfold linspace.
  change (1 <? Z.of_nat 50)%Z with true. cbv iota.
  apply set_last_last.
  intros E. apply (f_equal (@length T)) in E.
  destruct (0 <? Z.of_nat 50 - 1)%Z; try destruct (eqn _ _);
    rewrite !length_map, length_seq in E; discriminate.
Qed.

(** The launch point [(-3, 0.5)] with the reference collaborators. *)
Lemma ang_window_construction_witness :
  let lower := pymax 0.74056778087076414%float (radians (of_int 5)) in
  let upper := radians (of_int 85) : float in
  exists r : AngSpeedSpaceResult float,
    get_ang_speed_space (LM := Ref.libm) Ref.fsolve Ref.quad
      (-3)%float 0.5%float = Some r /\
    area r = fst (Ref.quad (f_diff (LM := Ref.libm) (-3) 0.5)%float
                           lower upper) /\
    angles r = linspace (degrees lower) (degrees upper) 50 /\
    lower_bound r
    = map (f_near (LM := Ref.libm) (-3) 0.5)%float
          (map radians (angles r)) /\
    upper_bound r
    = map (f_far (LM := Ref.libm) (-3) 0.5)%float
          (map radians (angles r)) /\
    last (angles r) (of_int 0) = degrees upper.
Proof.
  apply (ang_window_construction float float_scalar Ref.libm
           Ref.fsolve Ref.quad (-3)%float 0.5%float).
  vm_compute. reflexivity.
Defined.

(** C5, as the code has it.  [get_ang_speed_space] has no failure path
    of its own: whenever the root finder hands back a non-empty array,
    whatever its convergence flag and whether or not the clamped lower
    bound exceeds the upper one, the call returns a normal result, the
    quadrature over [lower, upper] with fifty sampled angles and bounds. *)
Theorem ang_speed_space_reports_no_failure :
  forall (T : Type) (SC : Scalar T) (LM : Libm T)
         (fsolve : Fsolve T) (quad : Quad T) (xpos ypos : T)
         (i : T) (rest : list T) (ier : Z),
    fsolve (f_squared_diff xpos ypos) (radians (of_int 85))
    = Build_FsolveOut (i :: rest) ier ->
    exists r : AngSpeedSpaceResult T,
      get_ang_speed_space fsolve quad xpos ypos = Some r /\
      area r = fst (quad (f_diff xpos ypos)
                         (pymax i (radians (of_int 5)))
                         (radians (of_int 85))) /\
      length (angles r) = 50%nat /\
      length (lower_bound r) = 50%nat /\
      length (upper_bound r) = 50%nat.
Proof.
  intros T SC LM fsolve quad xpos ypos i rest ier Hf.
  unfold get_ang_speed_space. rewrite Hf. cbn [fs_x nth_error bind].
  destruct (quad _ _ _) as [ar er].
  eexists. split; [reflexivity|].
  cbn [area angles lower_bound upper_bound fst].
  rewrite !length_map, linspace_length. repeat split.
Qed.

(** The stalled root finder at the launch point [(-3, 0.5)]. *)
Lemma ang_speed_space_reports_no_failure_witness :
  exists r : AngSpeedSpaceResult float,
    get_ang_speed_space (LM := Ref.libm) Ref.fsolve_stalled Ref.quad
      (-3)%float 0.5%float = Some r /\
    area r = fst (Ref.quad (f_diff (LM := Ref.libm) (-3) 0.5)%float
                    (pymax (radians (of_int 85) + 0.01)%float
                           (radians (of_int 5)))
                    (radians (of_int 85))) /\
    length (angles r) = 50%nat /\
    length (lower_bound r) = 50%nat /\
    length (upper_bound r) = 50%nat.
Proof.
  apply (ang_speed_space_reports_no_failure float float_scalar Ref.libm
           Ref.fsolve_stalled Ref.quad (-3)%float 0.5%float
           (radians (of_int 85) + 0.01)%float [] 5%Z).
  reflexivity.
Defined.

(** C5, as the claim has it, fails.  At the launch point [(-3, 0.5)] let
    the root finder stall: it reports no convergence ([ier = 5]) and an
    iterate above 85 degrees, so the clamped window has
    [lower > upper]; the call still returns a normal result. *)
Lemma stalled_root_finder_yields_normal_result :
  let out :=
    Ref.fsolve_stalled (f_squared_diff (LM := Ref.libm) (-3) 0.5)%float
                       (radians (of_int 85)) in
  fs_ier out <> 1%Z /\
  exists (i : float) (r : AngSpeedSpaceResult float),
    nth_error (fs_x out) 0 = Some i /\
    (pymax i (radians (of_int 5)) >? radians (of_int 85))%sc = true /\
    get_ang_speed_space (LM := Ref.libm) Ref.fsolve_stalled Ref.quad
      (-3)%float 0.5%float = Some r /\
    hd_error (angles r) = Some (degrees (pymax i (radians (of_int 5)))) /\
    last (angles r) 0%float = 85%float.
Proof.
  cbv zeta. split; [cbn; discriminate|].
  destruct (get_ang_speed_space (LM := Ref.libm) Ref.fsolve_stalled Ref.quad
              (-3)%float 0.5%float) as [r|] eqn:E;
    vm_compute in E; [|discriminate].
  eexists; exists r. split; [reflexivity|].
  split; [vm_compute; reflexivity|].
  split; [reflexivity|].
  inversion E; subst r. split; vm_compute; reflexivity.
Qed.

(** *** the launch point under the rim centre *)

Section Centre.
Local Open Scope R_scope.

(** The two curves at [x = 0], in exact arithmetic. *)
Lemma centre_curves (ypos a : R) :
  f_far_squared 0 ypos a
  = 0.5 * 9.81 / (ypos - 1.83 + 0.52 * Rtrigo1.tan a)
    * (0.52 / Rtrigo_def.cos a * (0.52 / Rtrigo_def.cos a)) /\
  f_near_squared 0 ypos a
  = 0.5 * 9.81 / (ypos - 1.83 - 0.52 * Rtrigo1.tan a)
    * (0.52 / Rtrigo_def.cos a * (0.52 / Rtrigo_def.cos a)).
Proof.
  unfold f_far_squared, f_near_squared, get_speed_func_squared, sq.
  destruct exact_constants as (Hg & Hw & Hh & _ & Hl).
  rewrite Hg, Hw, Hh, Hl.
  cbn [add sub mul div neg of_int tan cos real_scalar real_libm].
  split.
  - replace (1.04 / 2 - 0) with 0.52 by lra. reflexivity.
  - set (h := 0.52).
    replace (Ropp 1.04 / 2 - 0) with (- h) by (unfold h; lra).
    replace (ypos - 1.83 + - h * Rtrigo1.tan a)
      with (ypos - 1.83 - h * Rtrigo1.tan a) by ring.
    f_equal. unfold Rdiv. ring.
Qed.

Lemma radians_85_acute :
  0 < @radians R _ (of_int 85) < PI / 2.
Proof.
  unfold radians. cbn [mul div of_int pi real_scalar].
  pose proof PI_RGT_0. split; lra.
Qed.

End Centre.

(** C6, as the code has it.  For a launch point with [x = 0], in exact
    arithmetic and at every angle where the cosine and both denominators
    are not zero, the near curve is the mirror image of the far one,
    [near(a) = far(-a)]; the two are equal only where [tan a = 0]; and 85
    degrees, the window's upper bound, is not such an angle, so the
    curves differ there and it is no intersection. *)
Theorem centre_curves_mirror_not_equal :
  forall ypos a : R,
    Rtrigo_def.cos a <> 0%R ->
    (ypos - rim_height + rim_width / 2 * Rtrigo1.tan a <> 0)%R ->
    (ypos - rim_height - rim_width / 2 * Rtrigo1.tan a <> 0)%R ->
    f_near_squared 0%R ypos a = f_far_squared 0%R ypos (- a)%R /\
    (f_far_squared 0%R ypos a = f_near_squared 0%R ypos a
     <-> Rtrigo1.tan a = 0%R) /\
    (a = radians (of_int 85) -> f_squared_diff 0%R ypos a <> 0%R).
Proof.
  intros ypos a Hc Hd1 Hd2.
  destruct exact_constants as (_ & Hw & Hh & _).
  rewrite Hw, Hh in Hd1, Hd2.
  replace (1.04 / 2)%R with 0.52%R in Hd1, Hd2 by lra.
  destruct (centre_curves ypos a) as [Hfar Hnear].
  destruct (centre_curves ypos (- a)) as [Hfar' _].
  assert (Hq : (0.52 / Rtrigo_def.cos a * (0.52 / Rtrigo_def.cos a) <> 0)%R).
  { apply Rmult_integral_contrapositive_currified;
      apply Rmult_integral_contrapositive_currified;
      try lra; apply Rinv_neq_0_compat; exact Hc. }
  assert (Hiff : f_far_squared 0%R ypos a = f_near_squared 0%R ypos a
                 <-> Rtrigo1.tan a = 0%R).
  { rewrite Hfar, Hnear. split.
    - intros E.
      apply Rmult_eq_reg_r in E; [|exact Hq].
      apply (f_equal (fun v =>
               (v * (ypos - 1.83 + 0.52 * Rtrigo1.tan a)
                  * (ypos - 1.83 - 0.52 * Rtrigo1.tan a))%R)) in E.
      field_simplify in E; [|exact Hd2|exact Hd1]. lra.
    - intros ->. now rewrite Rmult_0_r, Rplus_0_r, Rminus_0_r. }
  split; [|split; [exact Hiff|]].
  - rewrite Hfar', Hnear, tan_neg, cos_neg. f_equal. f_equal. ring.
  - intros -> Hz. unfold f_squared_diff in Hz.
    cbn [sub real_scalar] in Hz. apply Rminus_diag_uniq in Hz.
    apply Hiff in Hz.
    pose proof (tan_gt_0 _ (proj1 radians_85_acute) (proj2 radians_85_acute)).
    lra.
Qed.

(** From [y = 1.5] at 45 degrees. *)
Lemma centre_curves_mirror_not_equal_witness :
  f_near_squared 0%R 1.5%R (PI / 4)%R
  = f_far_squared 0%R 1.5%R (- (PI / 4))%R /\
  (f_far_squared 0%R 1.5%R (PI / 4)%R = f_near_squared 0%R 1.5%R (PI / 4)%R
   <-> Rtrigo1.tan (PI / 4) = 0%R) /\
  ((PI / 4)%R = radians (of_int 85) ->
   f_squared_diff 0%R 1.5%R (PI / 4)%R <> 0%R).
Proof.
  destruct exact_constants as (_ & Hw & Hh & _).
  apply centre_curves_mirror_not_equal.
  - rewrite cos_PI4. apply Rgt_not_eq.
    apply Rdiv_lt_0_compat; [lra | apply sqrt_lt_R0; lra].
  - rewrite tan_PI4, Hw, Hh. lra.
  - rewrite tan_PI4, Hw, Hh. lra.
Defined.

(** C6, as the claim has it, fails: from [(0, 1.5)] at 45 degrees the
    two curves differ. *)
Lemma centre_curves_differ :
  f_far_squared 0%R 1.5%R (PI / 4)%R <> f_near_squared 0%R 1.5%R (PI / 4)%R.
Proof.
  destruct (centre_curves 1.5%R (PI / 4)%R) as [-> ->].
  rewrite tan_PI4, cos_PI4.
  assert (Hs : (0 < sqrt 2)%R) by (apply sqrt_lt_R0; lra).
  assert (Hq : (0 < 0.52 / (1 / sqrt 2) * (0.52 / (1 / sqrt 2)))%R).
  { apply Rmult_lt_0_compat; apply Rdiv_lt_0_compat; try lra;
      apply Rdiv_lt_0_compat; lra. }
  intros E. apply Rmult_eq_reg_r in E; [lra | lra].
Qed.

(* ================================================================== *)
(** ** Field aggregator *)

Lemma for_each_Forall {A B : Type} (f : A -> option B) (l : list A)
  (bs : list B) :
  for_each f l = Some bs ->
  Forall (fun b => exists a, In a l /\ f a = Some b) bs.
Proof.
  revert bs; induction l as [|a l IH]; simpl; intros bs E.
  - inversion E; constructor.
  - apply bind_Some in E as (b & Hb & E).
    apply bind_Some in E as (bs' & E' & E).
    inversion E; subst; clear E. constructor; [eauto|].
    eapply Forall_impl; [|exact (IH _ E')].
    intros b' (a' & Hin & Ha'); eauto.
Qed.

Lemma heatmap_cell_total {T : Type} {SC : Scalar T} {LM : Libm T}
  (fsolve : Fsolve T) (quad : Quad T) (xv yv : T) :
  (forall f seed, fs_x (fsolve f seed) <> []) ->
  heatmap_cell fsolve quad xv yv <> None.
Proof.
  intros Hne. unfold heatmap_cell, get_ang_speed_space.
  destruct (fs_x (fsolve (f_squared_diff xv yv) (radians (of_int 85))))
    as [|i rest] eqn:E; [now apply Hne in E|].
  cbn [nth_error bind]. destruct (quad _ _ _). discriminate.
Qed.

Lemma ref_secant_nonempty (n : nat) (f : float -> float) (a b : float) :
  fs_x (Ref.secant n f a b) <> [].
Proof.
  revert a b; induction n as [|n IH]; intros a b; simpl;
    destruct (PrimFloat.ltb _ _); try discriminate. apply IH.
Qed.

Lemma ref_heatmap_run :
  generate_heatmap (LM := Ref.libm) Ref.fsolve Ref.quad = ref_heatmap.
Proof. vm_compute. reflexivity. Qed.

(** C8, as the code has it.  With the default grid and a root finder
    that always hands back a non-empty array, [generate_heatmap] returns
    [x_range], twenty-five entries from [-6.0] that agree with the
    decimal sequence [-6.0, -5.8, ..., -1.2] within [1e-14] (the stop
    [-1] excluded); [y_range], the six entries
    [0.2, 0.4, 0.6, 0.8, 1.0, 1.2] within [1e-14] (the stop [1.25]
    excluded); and an [area_grid] of one row per [x_range] entry, each
    with one entry per [y_range] entry. *)
Theorem heatmap_default_grid :
  forall (LM : Libm float) (fsolve : Fsolve float) (quad : Quad float),
    (forall f seed, fs_x (fsolve f seed) <> []) ->
    exists hm : Heatmap float,
      generate_heatmap fsolve quad = Some hm /\
      x_range hm
      = [-6; -5.7999999999999998; -5.5999999999999996; -5.3999999999999995;
         -5.1999999999999993; -4.9999999999999991; -4.7999999999999989;
         -4.5999999999999988; -4.3999999999999986; -4.1999999999999984;
         -3.9999999999999982; -3.799999999999998; -3.5999999999999979;
         -3.3999999999999977; -3.1999999999999975; -2.9999999999999973;
         -2.7999999999999972; -2.599999999999997; -2.3999999999999968;
         -2.1999999999999966; -1.9999999999999964; -1.7999999999999963;
         -1.5999999999999961; -1.3999999999999959;
         -1.1999999999999957]%float /\
      within 1e-14 (x_range hm) (literal_sequence (-6) 0.2 25) = true /\
      y_range hm
      = [0.20000000000000001; 0.40000000000000002; 0.60000000000000009;
         0.80000000000000004; 1; 1.2]%float /\
      within 1e-14 (y_range hm) (literal_sequence 0.2 0.2 6) = true /\
      length (area_grid hm) = 25%nat /\
      Forall (fun row => length row = 6%nat) (area_grid hm).
Proof.
  intros LM fsolve quad Hne. unfold generate_heatmap.
  set (xr := arange (of_int (-6)) (of_int (-1)) (lit 0.2)).
  set (yr := arange (lit 0.2) (lit 1.25) (lit 0.2)).
  vm_compute in xr, yr. subst xr yr. cbn [bind].
  match goal with
  | |- context [for_each ?f ?l] =>
      destruct (for_each_total f l) as (grid & Hgrid)
  end.
  { intros xv _ E. cbv beta in E.
    match type of E with
    | for_each ?f ?l = None =>
        destruct (for_each_total f l) as (row & Hrow);
          [intros yv _; apply heatmap_cell_total; exact Hne | congruence]
    end. }
  rewrite Hgrid. cbn [bind]. eexists. split; [reflexivity|].
  cbn [x_range y_range area_grid].
  split; [reflexivity|]. split; [vm_compute; reflexivity|].
  split; [reflexivity|]. split; [vm_compute; reflexivity|].
  split; [exact (for_each_length _ _ _ Hgrid)|].
  eapply Forall_impl; [|exact (for_each_Forall _ _ _ Hgrid)].
  intros row (xv & _ & Hrow). cbv beta in Hrow.
  exact (for_each_length _ _ _ Hrow).
Qed.

(** The reference collaborators: the secant iteration always hands back
    one iterate. *)
Lemma heatmap_default_grid_witness :
  exists hm : Heatmap float,
    generate_heatmap (LM := Ref.libm) Ref.fsolve Ref.quad = Some hm /\
    x_range hm
    = [-6; -5.7999999999999998; -5.5999999999999996; -5.3999999999999995;
       -5.1999999999999993; -4.9999999999999991; -4.7999999999999989;
       -4.5999999999999988; -4.3999999999999986; -4.1999999999999984;
       -3.9999999999999982; -3.799999999999998; -3.5999999999999979;
       -3.3999999999999977; -3.1999999999999975; -2.9999999999999973;
       -2.7999999999999972; -2.599999999999997; -2.3999999999999968;
       -2.1999999999999966; -1.9999999999999964; -1.7999999999999963;
       -1.5999999999999961; -1.3999999999999959;
       -1.1999999999999957]%float /\
    within 1e-14 (x_range hm) (literal_sequence (-6) 0.2 25) = true /\
    y_range hm
    = [0.20000000000000001; 0.40000000000000002; 0.60000000000000009;
       0.80000000000000004; 1; 1.2]%float /\
    within 1e-14 (y_range hm) (literal_sequence 0.2 0.2 6) = true /\
    length (area_grid hm) = 25%nat /\
    Forall (fun row => length row = 6%nat) (area_grid hm).
Proof.
  apply (heatmap_default_grid Ref.libm Ref.fsolve Ref.quad).
  intros f seed. apply ref_secant_nonempty.
Defined.

(** C8, as the claim has it, fails: the last entry of [y_range] is
    [1.2], not [1.05], and no entry of [y_range] is [1.05] (the number
    [1.05] is the swept span [1.25 - 0.2], not a grid point). *)
Lemma default_y_range_ends_at_1_2 :
  exists hm : Heatmap float,
    generate_heatmap (LM := Ref.libm) Ref.fsolve Ref.quad = Some hm /\
    last (y_range hm) 0%float = 1.2%float /\
    last (y_range hm) 0%float <> 1.05%float /\
    existsb (PrimFloat.eqb 1.05%float) (y_range hm) = false.
Proof.
  rewrite ref_heatmap_run. unfold ref_heatmap.
  eexists. split; [reflexivity|]. cbv [y_range].
  split; [reflexivity|]. split; [|reflexivity].
  apply float_neq; reflexivity.
Qed.

(** C9.  Every cell [(i, j)] of the grid [generate_heatmap] returns is
    the area [get_ang_speed_space] computes at the launch point
    [(x_range[i], y_range[j])], multiplied by
    [arctan2(rim_width, |x_range[i]|)], [rim_width] being the full
    aperture width. *)
Theorem heatmap_cell_value :
  forall (T : Type) (SC : Scalar T) (LM : Libm T)
         (fsolve : Fsolve T) (quad : Quad T) (hm : Heatmap T)
         (i j : nat) (xi yj : T),
    generate_heatmap fsolve quad = Some hm ->
    nth_error (x_range hm) i = Some xi ->
    nth_error (y_range hm) j = Some yj ->
    exists (row : list T) (cell : T) (r : AngSpeedSpaceResult T),
      nth_error (area_grid hm) i = Some row /\
      nth_error row j = Some cell /\
      get_ang_speed_space fsolve quad xi yj = Some r /\
      cell = (area r * arctan2 rim_width (fabs xi))%sc.
Proof.
  intros T SC LM fsolve quad hm i j xi yj E Hi Hj.
  unfold generate_heatmap in E.
  apply bind_Some in E as (xr & _ & E).
  apply bind_Some in E as (yr & _ & E).
  apply bind_Some in E as (grid & Hgrid & E).
  inversion E; subst hm; clear E. cbn [x_range y_range area_grid] in *.
  destruct (for_each_nth _ _ _ Hgrid i xi Hi) as (row & Hrow & Hf).
  cbv beta in Hf.
  destruct (for_each_nth _ _ _ Hf j yj Hj) as (cell & Hcell & Hc).
  unfold heatmap_cell in Hc.
  apply bind_Some in Hc as (r & Hr & Hc). inversion Hc; subst cell.
  exists row, (area r * arctan2 rim_width (fabs xi))%sc, r.
  repeat split; assumption.
Qed.

(** The cell [(15, 1)] of the default grid with the reference
    collaborators. *)
Lemma heatmap_cell_value_witness :
  exists (hm : Heatmap float) (row : list float) (cell : float)
         (r : AngSpeedSpaceResult float),
    generate_heatmap (LM := Ref.libm) Ref.fsolve Ref.quad = Some hm /\
    nth_error (area_grid hm) 15 = Some row /\
    nth_error row 1 = Some cell /\
    get_ang_speed_space (LM := Ref.libm) Ref.fsolve Ref.quad
      (-2.9999999999999973)%float 0.40000000000000002%float = Some r /\
    cell = (area r
            * arctan2 (Libm := Ref.libm) rim_width
                (fabs (-2.9999999999999973)%float))%sc.
Proof.
  pose proof ref_heatmap_run as E. unfold ref_heatmap in E.
  match type of E with
  | _ = Some ?h =>
      destruct (heatmap_cell_value float float_scalar Ref.libm Ref.fsolve
                  Ref.quad h 15 1 _ _ E eq_refl eq_refl)
        as (row & cell & r & H);
      exists h, row, cell, r; split; [exact E | exact H]
  end.
Defined.

(* ================================================================== *)
(** ** Further properties of the code *)

(** *** request handlers *)

(** What [try_shot] returns on a solution of the documented shape. *)
Lemma try_shot_of_shape {T : Type} {SC : Scalar T} (solve_ivp : SolveIvp T)
  (x0 vx0 y0 vy0 : T) (c0 c1 c2 c3 : list T) :
  sol_y (shot_solution solve_ivp (x0, vx0, y0, vy0))
  = [x0 :: c0; vx0 :: c1; y0 :: c2; vy0 :: c3] ->
  try_shot solve_ivp (x0, vx0, y0, vy0)
  = Some {| result := outcome_code (last c0 x0);
            x := x0 :: c0; y := y0 :: c2 |}.
Proof.
  intros Hy. unfold try_shot.
  fold (shot_solution solve_ivp (x0, vx0, y0, vy0)). rewrite Hy.
  reflexivity.
Qed.

(** X1.  Both handlers raise when a key they read is missing from the
    request body: [calculate_trajectory] needs [x], [y], [vx] and [vy],
    [calculate_ang_speed] needs [x] and [y]. *)
Theorem handlers_raise_on_missing_key :
  forall (T : Type) (SC : Scalar T) (LM : Libm T)
         (solve_ivp : SolveIvp T) (fsolve : Fsolve T) (quad : Quad T)
         (data : Json),
    (getitem data "x" = None \/ getitem data "y" = None \/
     getitem data "vx" = None \/ getitem data "vy" = None ->
     calculate_trajectory solve_ivp data = None) /\
    (getitem data "x" = None \/ getitem data "y" = None ->
     calculate_ang_speed fsolve quad data = None).
Proof.
  intros T SC LM solve_ivp fsolve quad data.
  unfold calculate_trajectory, calculate_ang_speed. split.
  - intros [H | [H | [H | H]]];
      destruct (getitem data "x"), (getitem data "y"),
               (getitem data "vx"), (getitem data "vy");
      try discriminate; reflexivity.
  - intros [H | H];
      destruct (getitem data "x"), (getitem data "y");
      try discriminate; reflexivity.
Qed.

(** A body with no [vy], and a body with no [y]. *)
Lemma handlers_raise_on_missing_key_witness :
  calculate_trajectory Ref.solve_ivp
    [("x", -3); ("y", 0.5); ("vx", 6)]%float%string = None /\
  calculate_ang_speed (LM := Ref.libm) Ref.fsolve Ref.quad
    [("x", -3); ("vx", 6); ("vy", 7)]%float%string = None.
Proof.
  destruct (handlers_raise_on_missing_key float float_scalar Ref.libm
              Ref.solve_ivp Ref.fsolve Ref.quad
              [("x", -3); ("y", 0.5); ("vx", 6)]%float%string) as [H1 _].
  destruct (handlers_raise_on_missing_key float float_scalar Ref.libm
              Ref.solve_ivp Ref.fsolve Ref.quad
              [("x", -3); ("vx", 6); ("vy", 7)]%float%string) as [_ H2].
  split; [apply H1 | apply H2].
  - right; right; right; reflexivity.
  - right; reflexivity.
Defined.

(** X2.  [calculate_trajectory] hands the integrator the state
    [(x, vx, y, vy)] built from the values the body gives the four keys,
    the last one for a name that is repeated, whatever the order of the
    members and whatever other names the body holds: whenever the loop
    of [solve_ivp] returns, the answer is [try_shot]'s at that state and
    its path begins at the requested position [(x, y)]. *)
Theorem calculate_trajectory_starts_at_request :
  forall (T : Type) (SC : Scalar T) (S : Type) (m : Method T S) (n : nat)
         (solve_ivp : SolveIvp T) (data : Json) (x0 vx0 y0 vy0 : T),
    getitem data "x" = Some x0 -> getitem data "y" = Some y0 ->
    getitem data "vx" = Some vx0 -> getitem data "vy" = Some vy0 ->
    ivp_driver m n flight_model (of_int 0, lit 5.0) (x0, vx0, y0, vy0)
               [hit_ground; hit_rim; passed_rim] (lit 0.05)
    = Some (shot_solution solve_ivp (x0, vx0, y0, vy0)) ->
    exists r : TrajectoryResult T,
      calculate_trajectory solve_ivp data = Some r /\
      try_shot solve_ivp (x0, vx0, y0, vy0) = Some r /\
      hd_error (x r) = Some x0 /\ hd_error (y r) = Some y0.
Proof.
  intros T SC S m n solve_ivp data x0 vx0 y0 vy0 Hx Hy Hvx Hvy Hrun.
  apply ivp_driver_starts_at in Hrun as (c0 & c1 & c2 & c3 & Hsol & _).
  unfold calculate_trajectory. rewrite Hx, Hy, Hvx, Hvy. cbn [bind].
  rewrite (try_shot_of_shape _ _ _ _ _ _ _ _ _ Hsol).
  eexists. repeat split.
Qed.

(** A body that lists the velocity first, names [x] twice and carries a
    name of no use. *)
Lemma calculate_trajectory_starts_at_request_witness :
  exists r : TrajectoryResult float,
    calculate_trajectory Ref.solve_ivp
      [("x", 99); ("vy", 7); ("vx", 6); ("note", 1); ("y", 0.5);
       ("x", -3)]%float%string
    = Some r /\
    try_shot Ref.solve_ivp (-3, 6, 0.5, 7)%float = Some r /\
    hd_error (x r) = Some (-3)%float /\ hd_error (y r) = Some 0.5%float.
Proof.
  apply (calculate_trajectory_starts_at_request float float_scalar
           Ref.MethodState Ref.method 1000 Ref.solve_ivp);
    [reflexivity | reflexivity | reflexivity | reflexivity
    | vm_compute; reflexivity].
Defined.

(** *** a final abscissa that is not a number *)

(** X3.  When the last recorded abscissa is NaN, both comparisons of the
    classification are false and [try_shot] reports the shot as a
    success (code [0]). *)
Theorem try_shot_nan_is_coded_success :
  forall (solve_ivp : SolveIvp float) (s0 : State float)
         (r : TrajectoryResult float),
    try_shot solve_ivp s0 = Some r ->
    last_error (x r) = Some nan ->
    result r = 0%Z.
Proof.
  intros solve_ivp s0 r E Hnan. unfold try_shot in E.
  apply bind_Some in E as (row0 & _ & E).
  apply bind_Some in E as (x_last & Hlast & E).
  apply bind_Some in E as (row2 & _ & E).
  inversion E; subst r; clear E. cbn [x result] in *.
  rewrite Hlast in Hnan. inversion Hnan; subst x_last. reflexivity.
Qed.

(** The ball released at rest, with the reference integrator. *)
Lemma try_shot_nan_is_coded_success_witness :
  exists r : TrajectoryResult float,
    try_shot Ref.solve_ivp at_rest = Some r /\
    last_error (x r) = Some nan /\ result r = 0%Z.
Proof.
  destruct (try_shot Ref.solve_ivp at_rest) as [r|] eqn:E;
    [|vm_compute in E; discriminate].
  assert (Hlast : last_error (x r) = Some nan)
    by (vm_compute in E; inversion E; reflexivity).
  exists r. split; [reflexivity|]. split; [exact Hlast|].
  exact (try_shot_nan_is_coded_success Ref.solve_ivp at_rest r E Hlast).
Defined.

(** *** the required-speed model in exact arithmetic *)

Section Ballistics.
Local Open Scope R_scope.

(** The squared required speed, with the literals read. *)
Lemma speed_squared_exact (x0 y0 x1 y1 a : R) :
  get_speed_func_squared (x0, y0) (x1, y1) a
  = 0.5 * 9.81 / (y0 - y1 + (x1 - x0) * Rtrigo1.tan a)
    * ((x1 - x0) / Rtrigo_def.cos a * ((x1 - x0) / Rtrigo_def.cos a)).
Proof.
  unfold get_speed_func_squared, sq.
  destruct exact_constants as (Hg & _ & _ & _ & Hl). rewrite Hg, Hl.
  reflexivity.
Qed.

(** The two edge curves in terms of the edge offsets. *)
Lemma edge_curves_exact (xpos ypos a : R) :
  f_far_squared xpos ypos a
  = 0.5 * 9.81 / (ypos - rim_height + far_offset xpos * Rtrigo1.tan a)
    * (far_offset xpos / Rtrigo_def.cos a
       * (far_offset xpos / Rtrigo_def.cos a)) /\
  f_near_squared xpos ypos a
  = 0.5 * 9.81 / (ypos - rim_height + near_offset xpos * Rtrigo1.tan a)
    * (near_offset xpos / Rtrigo_def.cos a
       * (near_offset xpos / Rtrigo_def.cos a)).
Proof.
  unfold f_far_squared, f_near_squared. rewrite 2!speed_squared_exact.
  unfold far_offset, near_offset.
  cbn [div neg of_int real_scalar]. split; reflexivity.
Qed.

(** The gap between the squared curves, over a common denominator. *)
Lemma squared_gap_exact (xpos ypos a : R) :
  Rtrigo_def.cos a <> 0 ->
  ypos - rim_height + far_offset xpos * Rtrigo1.tan a <> 0 ->
  ypos - rim_height + near_offset xpos * Rtrigo1.tan a <> 0 ->
  f_squared_diff xpos ypos a
  = 0.5 * 9.81 * rim_width
    * (Rtrigo1.tan a * (near_offset xpos * far_offset xpos)
       - (rim_height - ypos) * (near_offset xpos + far_offset xpos))
    / (Rtrigo_def.cos a * Rtrigo_def.cos a
       * (ypos - rim_height + far_offset xpos * Rtrigo1.tan a)
       * (ypos - rim_height + near_offset xpos * Rtrigo1.tan a)).
Proof.
  intros Hc Hf Hn. unfold f_squared_diff.
  destruct (edge_curves_exact xpos ypos a) as [-> ->].
  cbn [sub real_scalar].
  assert (Hw : rim_width = far_offset xpos - near_offset xpos)
    by (unfold far_offset, near_offset; lra).
  rewrite Hw.
  generalize dependent (far_offset xpos).
  generalize dependent (near_offset xpos).
  intros dn Hn df Hf _. field. repeat split; assumption.
Qed.

End Ballistics.

(** X4.  The required speed is the right one: in exact arithmetic, a
    drag-free projectile launched from the start point at angle [a] with
    the squared speed [get_speed_func_squared] returns is, when it
    reaches the abscissa of the target, exactly at the target's height
    (for a target not straight above the start, an angle whose cosine is
    not zero and a denominator that is not zero). *)
Theorem required_speed_hits_target :
  forall x0 y0 x1 y1 a : R,
    x1 <> x0 ->
    Rtrigo_def.cos a <> 0%R ->
    (y0 - y1 + (x1 - x0) * Rtrigo1.tan a <> 0)%R ->
    parabola_height x0 y0 a (get_speed_func_squared (x0, y0) (x1, y1) a) x1
    = y1.
Proof.
  intros x0 y0 x1 y1 a Hx Hc Hd.
  unfold parabola_height. rewrite speed_squared_exact.
  destruct exact_constants as (-> & _).
  set (G := 9.81%R). assert (HG : G <> 0%R) by (unfold G; lra). clearbody G.
  replace 0.5%R with (/ 2)%R by lra.
  field. repeat split; try assumption; lra.
Qed.

(** Three metres in front of a point one metre up, at 45 degrees. *)
Lemma required_speed_hits_target_witness :
  parabola_height (-3)%R 1%R (PI / 4)%R
    (get_speed_func_squared (-3, 1)%R (0, 2)%R (PI / 4)%R) 0%R = 2%R.
Proof.
  apply required_speed_hits_target.
  - lra.
  - rewrite cos_PI4. apply Rgt_not_eq.
    apply Rdiv_lt_0_compat; [lra | apply sqrt_lt_R0; lra].
  - rewrite tan_PI4. lra.
Defined.



(** X6.  The angle the root finder is asked for has a closed form: in
    exact arithmetic, where the cosine and both denominators are not
    zero, the two squared curves are equal at [a] exactly when
    [tan a * (d_near * d_far) = (rim_height - y) * (d_near + d_far)],
    [d_near] and [d_far] being the horizontal offsets of the two rim
    edges from the launch point. *)
Theorem intersection_angle_closed_form :
  forall xpos ypos a : R,
    Rtrigo_def.cos a <> 0%R ->
    (ypos - rim_height + far_offset xpos * Rtrigo1.tan a <> 0)%R ->
    (ypos - rim_height + near_offset xpos * Rtrigo1.tan a <> 0)%R ->
    (f_squared_diff xpos ypos a = 0
     <-> Rtrigo1.tan a * (near_offset xpos * far_offset xpos)
         = (rim_height - ypos) * (near_offset xpos + far_offset xpos))%R.
Proof.
  intros xpos ypos a Hc Hf Hn.
  rewrite (squared_gap_exact xpos ypos a Hc Hf Hn).
  destruct exact_constants as (_ & Hw & _). rewrite Hw.
  set (N := (Rtrigo1.tan a * (near_offset xpos * far_offset xpos)
             - (rim_height - ypos) * (near_offset xpos + far_offset xpos))%R).
  set (Dn := (Rtrigo_def.cos a * Rtrigo_def.cos a
              * (ypos - rim_height + far_offset xpos * Rtrigo1.tan a)
              * (ypos - rim_height + near_offset xpos * Rtrigo1.tan a))%R).
  assert (HDn : Dn <> 0%R).
  { unfold Dn. repeat apply Rmult_integral_contrapositive_currified;
      assumption. }
  split.
  - intros E. unfold Rdiv in E.
    apply Rmult_integral in E as [E | E];
      [| apply Rinv_neq_0_compat in HDn; contradiction].
    apply Rmult_integral in E as [E | E]; [lra|].
    unfold N in E. lra.
  - intros E. replace N with 0%R by (unfold N; lra).
    unfold Rdiv. ring.
Qed.

(** From [(-3, 0.5)] at 45 degrees. *)
Lemma intersection_angle_closed_form_witness :
  (f_squared_diff (-3) 0.5 (PI / 4) = 0
   <-> Rtrigo1.tan (PI / 4) * (near_offset (-3) * far_offset (-3))
       = (rim_height - 0.5) * (near_offset (-3) + far_offset (-3)))%R.
Proof.
  destruct exact_constants as (_ & Hw & Hh & _).
  apply intersection_angle_closed_form.
  - rewrite cos_PI4. apply Rgt_not_eq.
    apply Rdiv_lt_0_compat; [lra | apply sqrt_lt_R0; lra].
  - unfold far_offset. rewrite tan_PI4, Hw, Hh. lra.
  - unfold near_offset. rewrite tan_PI4, Hw, Hh. lra.
Defined.

(** X7.  Where the window is open: in exact arithmetic, at an angle
    whose cosine is not zero and for which both denominators are
    positive, the near curve is not above the far one exactly when
    [(rim_height - y) * (d_near + d_far) <= tan a * (d_near * d_far)];
    then the sampled lower bound [f_near] is not above the sampled upper
    bound [f_far]. *)
Theorem speed_window_order :
  forall xpos ypos a : R,
    Rtrigo_def.cos a <> 0%R ->
    (0 < ypos - rim_height + far_offset xpos * Rtrigo1.tan a)%R ->
    (0 < ypos - rim_height + near_offset xpos * Rtrigo1.tan a)%R ->
    ((f_near_squared xpos ypos a <= f_far_squared xpos ypos a
      <-> (rim_height - ypos) * (near_offset xpos + far_offset xpos)
          <= Rtrigo1.tan a * (near_offset xpos * far_offset xpos)) /\
     ((rim_height - ypos) * (near_offset xpos + far_offset xpos)
      <= Rtrigo1.tan a * (near_offset xpos * far_offset xpos) ->
      f_near xpos ypos a <= f_far xpos ypos a))%R.
Proof.
  intros xpos ypos a Hc Hf Hn.
  assert (Hgap := squared_gap_exact xpos ypos a Hc
                    (Rgt_not_eq _ _ Hf) (Rgt_not_eq _ _ Hn)).
  unfold f_squared_diff in Hgap. cbn [sub real_scalar] in Hgap.
  destruct exact_constants as (_ & Hw & _). rewrite Hw in Hgap.
  set (N := (Rtrigo1.tan a * (near_offset xpos * far_offset xpos)
             - (rim_height - ypos) * (near_offset xpos + far_offset xpos))%R)
    in *.
  set (Dn := (Rtrigo_def.cos a * Rtrigo_def.cos a
              * (ypos - rim_height + far_offset xpos * Rtrigo1.tan a)
              * (ypos - rim_height + near_offset xpos * Rtrigo1.tan a))%R)
    in *.
  assert (HDn : (0 < Dn)%R).
  { assert (H2 := Rsqr_pos_lt _ Hc). unfold Rsqr in H2.
    unfold Dn. apply Rmult_lt_0_compat; [|assumption].
    apply Rmult_lt_0_compat; assumption. }
  assert (Hinv : (0 < / Dn)%R) by now apply Rinv_0_lt_compat.
  assert (Hiff : (f_near_squared xpos ypos a <= f_far_squared xpos ypos a
                  <-> 0 <= N)%R).
  { set (C := (0.5 * 9.81 * 1.04)%R) in *.
    assert (HC : (0 < C)%R) by (unfold C; lra). clearbody C.
    unfold Rdiv in Hgap. split; intros H.
    - destruct (Rle_or_lt 0 N) as [|Hlt]; [assumption|].
      assert ((0 < C * (- N) * / Dn)%R).
      { apply Rmult_lt_0_compat; [apply Rmult_lt_0_compat|]; lra. }
      replace (C * (- N) * / Dn)%R with (- (C * N * / Dn))%R in * by ring.
      lra.
    - assert ((0 <= C * N * / Dn)%R).
      { apply Rmult_le_pos; [apply Rmult_le_pos|]; lra. }
      lra. }
  split.
  - rewrite Hiff. unfold N. split; intros; lra.
  - intros H. unfold f_near, f_far. cbn [fsqrt real_scalar].
    apply sqrt_le_1_alt. apply Hiff. unfold N. lra.
Qed.

(** From [(-3, 1.5)] at 45 degrees. *)
Lemma speed_window_order_witness :
  ((f_near_squared (-3) 1.5 (PI / 4) <= f_far_squared (-3) 1.5 (PI / 4)
    <-> (rim_height - 1.5) * (near_offset (-3) + far_offset (-3))
        <= Rtrigo1.tan (PI / 4) * (near_offset (-3) * far_offset (-3))) /\
   ((rim_height - 1.5) * (near_offset (-3) + far_offset (-3))
    <= Rtrigo1.tan (PI / 4) * (near_offset (-3) * far_offset (-3)) ->
    f_near (-3) 1.5 (PI / 4) <= f_far (-3) 1.5 (PI / 4)))%R.
Proof.
  destruct exact_constants as (_ & Hw & Hh & _).
  apply speed_window_order.
  - rewrite cos_PI4. apply Rgt_not_eq.
    apply Rdiv_lt_0_compat; [lra | apply sqrt_lt_R0; lra].
  - unfold far_offset. rewrite tan_PI4, Hw, Hh. lra.
  - unfold near_offset. rewrite tan_PI4, Hw, Hh. lra.
Defined.

(** *** the flight model in exact arithmetic *)

Section FlightExact.
Local Open Scope R_scope.

Lemma exact_lt_true (a b : R) : Exact.lt a b = true <-> a < b.
Proof.
  unfold Exact.lt. destruct (Rlt_dec a b); split; intros; try lra;
    discriminate.
Qed.

Lemma drag_constants_positive :
  0 < @cargo_mass R _ /\ 0 < @g R _ /\
  0 < lit 0.5%Q * air_density * cargo_area * @drag_coeff R _.
Proof.
  destruct exact_constants as (Hg & _ & _ & Hr & Hl).
  unfold cargo_area, sq. rewrite Hg, Hr, Hl.
  unfold cargo_mass, air_density, drag_coeff; cbn; unfold Q2R; cbn.
  pose proof PI_RGT_0. repeat split; lra.
Qed.

End FlightExact.

(** X8.  Drag only takes energy away: in exact arithmetic, at every
    state with a non-zero speed [v], the mechanical energy
    [m v^2 / 2 + m g y] changes along [flight_model] at the rate
    [- (rho A Cd / 2) v^3], which is negative. *)
Theorem drag_dissipates_energy :
  forall t px vx py vy : R,
    (0 < vx * vx + vy * vy)%R ->
    (energy_rate (px, vx, py, vy) (flight_model t (px, vx, py, vy))
     = - (lit 0.5%Q * air_density * cargo_area * drag_coeff)
       * sqrt (vx * vx + vy * vy) ^ 3 /\
     energy_rate (px, vx, py, vy) (flight_model t (px, vx, py, vy)) < 0)%R.
Proof.
  intros t px vx py vy Hv.
  destruct drag_constants_positive as (Hm & _ & Hk).
  assert (Hs : (0 < sqrt (vx * vx + vy * vy))%R) by now apply sqrt_lt_R0.
  assert (Hss : (sqrt (vx * vx + vy * vy) * sqrt (vx * vx + vy * vy)
                 = vx * vx + vy * vy)%R) by (apply sqrt_sqrt; lra).
  assert (E : (energy_rate (px, vx, py, vy)
                 (flight_model t (px, vx, py, vy))
               = - (lit 0.5%Q * air_density * cargo_area * drag_coeff)
                 * sqrt (vx * vx + vy * vy) ^ 3)%R).
  { unfold energy_rate, flight_model, sq.
    cbn [add sub mul div neg fsqrt real_scalar].
    set (k := (lit 0.5%Q * air_density * cargo_area * drag_coeff)%R) in *.
    set (m := @cargo_mass R _) in *. set (G := @g R _).
    set (v := sqrt (vx * vx + vy * vy)) in *.
    rewrite <- Hss. clearbody k m G v.
    transitivity (- k * v * (vx * vx + vy * vy))%R;
      [field; split; lra | rewrite <- Hss; ring]. }
  split; [exact E|]. rewrite E.
  set (k := (lit 0.5%Q * air_density * cargo_area * drag_coeff)%R) in *.
  set (v := sqrt (vx * vx + vy * vy)) in *.
  assert (0 < k * v ^ 3)%R; [|lra].
  apply Rmult_lt_0_compat; [exact Hk | now apply pow_lt].
Qed.

(** The launch of the scenario: [vx = 6], [vy = 7]. *)
Lemma drag_dissipates_energy_witness :
  (energy_rate (-3, 6, 0.5, 7) (flight_model 0 (-3, 6, 0.5, 7))
   = - (lit 0.5%Q * air_density * cargo_area * drag_coeff)
     * sqrt (6 * 6 + 7 * 7) ^ 3 /\
   energy_rate (-3, 6, 0.5, 7) (flight_model 0 (-3, 6, 0.5, 7)) < 0)%R.
Proof.
  apply drag_dissipates_energy. lra.
Defined.

(** X9.  How the terminal events meet the classification, in exact
    arithmetic.  A state at which the far-plane event is zero is coded
    an overshoot, never a success; a state at which the rim event is
    zero through its horizontal term (the ball a radius short of the
    near edge) is coded an undershoot; and when the rim event is zero
    through its vertical term, the ball's centre is a radius above the
    rim height. *)
Theorem terminal_events_and_outcome :
  forall t px vx py vy : R,
    (passed_rim_fn t (px, vx, py, vy) = 0%R -> outcome_code px = 1%Z) /\
    (hit_rim_fn t (px, vx, py, vy) = 0%R ->
     (px - - (rim_width / 2) <= rim_height - py)%R ->
     outcome_code px = (-1)%Z) /\
    (hit_rim_fn t (px, vx, py, vy) = 0%R ->
     (rim_height - py < px - - (rim_width / 2))%R ->
     py = (rim_height + cargo_radius)%R).
Proof.
  intros t px vx py vy.
  destruct exact_constants as (_ & Hw & Hh & Hr & _).
  assert (Hrim : hit_rim_fn t (px, vx, py, vy)
                 = (Rmin (px - - (rim_width / 2)) (rim_height - py)
                    + cargo_radius)%R).
  { cbn [hit_rim_fn]. rewrite pymin_Rmin.
    cbn [add sub neg div of_int real_scalar]. f_equal. f_equal; lra. }
  assert (Hlo : forall v : R,
             (v < - (1.04 / 2))%R -> outcome_code v = (-1)%Z).
  { intros v Hv. unfold outcome_code.
    cbn [lt sub neg div of_int real_scalar]. rewrite Hw.
    destruct (Exact.lt v _) eqn:E1; [reflexivity|].
    exfalso. apply not_true_iff_false in E1. apply E1.
    apply exact_lt_true. lra. }
  assert (Hhi : forall v : R,
             (1.04 / 2 - 0.075 < v)%R -> outcome_code v = 1%Z).
  { intros v Hv. unfold outcome_code.
    cbn [lt sub neg div of_int real_scalar]. rewrite Hw, Hr.
    destruct (Exact.lt v _) eqn:E1.
    - apply exact_lt_true in E1. lra.
    - destruct (Exact.lt _ v) eqn:E2; [reflexivity|].
      exfalso. apply not_true_iff_false in E2. apply E2.
      apply exact_lt_true. lra. }
  repeat split.
  - cbn [passed_rim_fn sub div of_int real_scalar]. rewrite Hw.
    intros H. apply Hhi. lra.
  - rewrite Hrim, Hw, Hh, Hr. intros H Hmin.
    rewrite Rmin_left in H by lra. apply Hlo. lra.
  - rewrite Hrim, Hw, Hh, Hr. intros H Hmin.
    rewrite Rmin_right in H by lra. lra.
Qed.

(** The state at the far plane, and the ball a radius short of the near
    edge at floor level. *)
Lemma terminal_events_and_outcome_witness :
  @outcome_code R _ (rim_width / 2)%R = 1%Z /\
  @outcome_code R _ (- (rim_width / 2) - cargo_radius)%R = (-1)%Z.
Proof.
  destruct exact_constants as (_ & Hw & Hh & Hr & _).
  split.
  - apply (proj1 (terminal_events_and_outcome 0 (rim_width / 2) 0 0 0))%R.
    cbn [passed_rim_fn sub div of_int real_scalar]. lra.
  - apply (proj1 (proj2 (terminal_events_and_outcome 0
                           (- (rim_width / 2) - cargo_radius) 0 0 0)))%R.
    + cbn [hit_rim_fn]. rewrite pymin_Rmin.
      cbn [add sub neg div of_int real_scalar].
      rewrite Rmin_left by (rewrite Hw, Hh, Hr; lra). lra.
    + rewrite Hw, Hh, Hr. lra.
Defined.

(** *** the positional weight *)

(** X10.  The positional weight of the field, in exact arithmetic: it
    is positive, at most [pi/2], and strictly smaller the farther the
    launch abscissa is from the rim centre. *)
Theorem positional_weight_decreases :
  forall x1 x2 : R,
    (Rabs x1 < Rabs x2)%R ->
    (0 < arctan2 rim_width (fabs x2)
     /\ arctan2 rim_width (fabs x2) < arctan2 rim_width (fabs x1)
     /\ arctan2 rim_width (fabs x1) <= PI / 2)%R.
Proof.
  intros x1 x2 H12.
  destruct exact_constants as (_ & Hw & _). rewrite Hw.
  cbn [arctan2 fabs real_libm real_scalar].
  pose proof (Rabs_pos x1) as H1.
  assert (H2 : (0 < Rabs x2)%R) by lra.
  assert (Hq2 : (0 < 1.04 / Rabs x2)%R) by (apply Rdiv_lt_0_compat; lra).
  unfold Exact.arctan2 at 1 2.
  destruct (Rlt_dec 0 (Rabs x2)) as [_|]; [|contradiction].
  assert (Hpos : (0 < atan (1.04 / Rabs x2))%R).
  { rewrite <- atan_0. now apply atan_increasing. }
  split; [exact Hpos|].
  unfold Exact.arctan2.
  destruct (Rlt_dec 0 (Rabs x1)) as [Hp|Hz].
  - split.
    + apply atan_increasing. unfold Rdiv.
      apply Rmult_lt_compat_l; [lra|].
      apply Rinv_lt_contravar; [|exact H12].
      now apply Rmult_lt_0_compat.
    + destruct (atan_bound (1.04 / Rabs x1)). lra.
  - destruct (Rlt_dec (Rabs x1) 0); [lra|].
    destruct (Rlt_dec 0 1.04); [|lra].
    destruct (atan_bound (1.04 / Rabs x2)). split; lra.
Qed.

(** The nearest and the farthest column of the default grid. *)
Lemma positional_weight_decreases_witness :
  (0 < arctan2 rim_width (fabs (-6))
   /\ arctan2 rim_width (fabs (-6)) < arctan2 rim_width (fabs (-1.2))
   /\ arctan2 rim_width (fabs (-1.2)) <= PI / 2)%R.
Proof.
  apply positional_weight_decreases.
  rewrite !Rabs_left by lra. lra.
Defined.

(** *** the sampled angles in exact arithmetic *)

Section Sampling.

Lemma nth_map_seq {A : Type} (h : nat -> A) (n i : nat) (d : A) :
  (i < n)%nat -> nth i (map h (seq 0 n)) d = h i.
Proof.
  intros Hi. rewrite nth_indep with (d' := h 0%nat)
    by now rewrite length_map, length_seq.
  rewrite map_nth, seq_nth by exact Hi. reflexivity.
Qed.

Lemma nth_map_in {A B : Type} (h : A -> B) (l : list A) (i : nat)
  (d : B) (d' : A) :
  (i < length l)%nat -> nth i (map h l) d = h (nth i l d').
Proof.
  intros Hi. rewrite nth_indep with (d' := h d')
    by now rewrite length_map.
  apply map_nth.
Qed.

Lemma set_last_nth {T : Type} (l : list T) (v d : T) (i : nat) :
  (i < length l)%nat ->
  nth i (set_last l v) d
  = if Nat.eqb (S i) (length l) then v else nth i l d.
Proof.
  intros Hi. destruct l as [|a l]; [inversion Hi|].
  unfold set_last.
  assert (Hlen : length (removelast (a :: l)) = length l).
  { rewrite removelast_firstn_len, length_firstn. cbn [length]. lia. }
  destruct (Nat.eqb (S i) (length (a :: l))) eqn:E.
  - apply Nat.eqb_eq in E. cbn [length] in E.
    rewrite app_nth2 by lia.
    replace (i - length (removelast (a :: l)))%nat with 0%nat by lia.
    reflexivity.
  - apply Nat.eqb_neq in E. cbn [length] in E, Hi.
    rewrite app_nth1 by lia.
    rewrite removelast_firstn_len. cbn [length Nat.pred].
    rewrite nth_firstn.
    destruct (Nat.ltb_spec i (length l)); [reflexivity | lia].
Qed.

Local Open Scope R_scope.

(** Entry [i] of [numpy.linspace(a, b, 50)]. *)
Lemma linspace_nth_exact (a b : R) (i : nat) :
  (i < 50)%nat ->
  nth i (linspace a b 50) 0 = a + INR i * (b - a) / 49.
Proof.
  intros Hi. unfold linspace.
  change (1 <? Z.of_nat 50)%Z with true.
  change (0 <? Z.of_nat 50 - 1)%Z with true. cbv iota.
  change (Z.of_nat 50 - 1)%Z with 49%Z.
  cbn [add sub mul div of_int eqn real_scalar].
  rewrite set_last_nth
    by (destruct (Exact.eqn _ _);
        now rewrite !length_map, length_seq).
  assert (Hlen : forall l : list R,
             length l = 50%nat ->
             Nat.eqb (S i) (length l) = Nat.eqb (S i) 50)
    by (intros l ->; reflexivity).
  rewrite Hlen
    by (destruct (Exact.eqn _ _); now rewrite !length_map, length_seq).
  destruct (Nat.eqb (S i) 50) eqn:E.
  - apply Nat.eqb_eq in E. assert (i = 49%nat) by lia. subst i.
    change (INR 49) with (IZR (Z.of_nat 49)) || rewrite INR_IZR_INZ.
    cbn [Z.of_nat Pos.of_succ_nat Pos.succ]. field.
  - destruct (Exact.eqn _ _); rewrite !map_map, nth_map_seq by exact Hi;
      rewrite INR_IZR_INZ; field.
Qed.

Lemma degrees_radians_exact (v : R) :
  radians (degrees v) = v /\ degrees (radians v) = v.
Proof.
  unfold radians, degrees. cbn [mul div of_int pi real_scalar].
  pose proof PI_RGT_0. split; field; lra.
Qed.

(** The sampled angles of a result, entry by entry. *)
Lemma angles_nth_exact (fsolve : Fsolve R) (quad : Quad R)
  (xpos ypos i : R) (r : AngSpeedSpaceResult R) (k : nat) :
  nth_error (fs_x (fsolve (f_squared_diff xpos ypos) (radians (of_int 85))))
            0 = Some i ->
  get_ang_speed_space fsolve quad xpos ypos = Some r ->
  (k < 50)%nat ->
  length (angles r) = 50%nat /\
  nth k (angles r) 0
  = degrees (Rmax i (radians (of_int 5))
             + INR k * (radians (of_int 85) - Rmax i (radians (of_int 5)))
               / 49) /\
  lower_bound r = map (f_near xpos ypos) (map radians (angles r)) /\
  upper_bound r = map (f_far xpos ypos) (map radians (angles r)).
Proof.
  intros Hi Hr Hk. unfold get_ang_speed_space in Hr.
  rewrite Hi in Hr. cbn [bind] in Hr.
  destruct (quad _ _ _) as [ar er]. inversion Hr; subst r; clear Hr.
  cbn [angles lower_bound upper_bound].
  split; [apply linspace_length|]. split; [|split; reflexivity].
  rewrite linspace_nth_exact by exact Hk.
  rewrite pymax_Rmax.
  assert (Hlin : forall lo up n : R,
             lo * (180 / PI) + n * (up * (180 / PI) - lo * (180 / PI)) / 49
             = (lo + n * (up - lo) / 49) * (180 / PI))
    by (intros; pose proof PI_RGT_0; field; lra).
  unfold degrees, radians. cbn [mul div of_int pi real_scalar].
  apply Hlin.
Qed.

End Sampling.

(** X11.  The curves are sampled at fifty equally spaced angles across
    the window: in exact arithmetic, with [lower = max(intersection,
    radians 5)] and [upper = radians 85], entry [k] of [angles] is the
    angle [lower + k (upper - lower) / 49] in degrees, and entries [k] of
    [lower_bound] and [upper_bound] are [f_near] and [f_far] at that
    angle. *)
Theorem samples_equally_spaced :
  forall (fsolve : Fsolve R) (quad : Quad R) (xpos ypos i : R)
         (r : AngSpeedSpaceResult R) (k : nat),
    nth_error (fs_x (fsolve (f_squared_diff xpos ypos)
                            (radians (of_int 85)))) 0 = Some i ->
    get_ang_speed_space fsolve quad xpos ypos = Some r ->
    (k < 50)%nat ->
    let lower := Rmax i (radians (of_int 5)) in
    let upper := radians (of_int 85) in
    let a_k := (lower + INR k * (upper - lower) / 49)%R in
    nth k (angles r) 0%R = degrees a_k /\
    nth k (lower_bound r) 0%R = f_near xpos ypos a_k /\
    nth k (upper_bound r) 0%R = f_far xpos ypos a_k.
Proof.
  intros fsolve quad xpos ypos i r k Hi Hr Hk lower upper a_k.
  destruct (angles_nth_exact fsolve quad xpos ypos i r k Hi Hr Hk)
    as (Hlen & Hnth & Hlo & Hup).
  fold lower upper a_k in Hnth.
  split; [exact Hnth|].
  rewrite Hlo, Hup.
  rewrite 2!(nth_map_in _ (map radians (angles r)) k 0%R 0%R)
    by (rewrite length_map; lia).
  rewrite (nth_map_in radians (angles r) k 0%R 0%R) by lia.
  rewrite Hnth. destruct (degrees_radians_exact a_k) as [-> _].
  split; reflexivity.
Qed.

(** A root finder that answers one radian, at [(-3, 0.5)], entry 10. *)
Lemma samples_equally_spaced_witness :
  exists r : AngSpeedSpaceResult R,
    get_ang_speed_space (ExactRef.fsolve_at 1%R) ExactRef.quad_zero
      (-3)%R 0.5%R = Some r /\
    let lower := Rmax 1%R (radians (of_int 5)) in
    let upper := radians (of_int 85) in
    let a_k := (lower + INR 10 * (upper - lower) / 49)%R in
    nth 10 (angles r) 0%R = degrees a_k /\
    nth 10 (lower_bound r) 0%R = f_near (-3)%R 0.5%R a_k /\
    nth 10 (upper_bound r) 0%R = f_far (-3)%R 0.5%R a_k.
Proof.
  eexists. split; [reflexivity|].
  apply (samples_equally_spaced (ExactRef.fsolve_at 1%R) ExactRef.quad_zero
           (-3)%R 0.5%R 1%R _ 10%nat);
    [reflexivity | reflexivity | lia].
Defined.

(** X12.  The sampled angles are strictly increasing whenever the
    intersection the root finder hands back is below 85 degrees (in
    exact arithmetic); so the window is then traversed from its lower to
    its upper end. *)
Theorem angles_strictly_increasing :
  forall (fsolve : Fsolve R) (quad : Quad R) (xpos ypos i : R)
         (r : AngSpeedSpaceResult R) (j k : nat),
    nth_error (fs_x (fsolve (f_squared_diff xpos ypos)
                            (radians (of_int 85)))) 0 = Some i ->
    get_ang_speed_space fsolve quad xpos ypos = Some r ->
    (i < radians (of_int 85))%R ->
    (j < k)%nat -> (k < 50)%nat ->
    (nth j (angles r) 0 < nth k (angles r) 0)%R.
Proof.
  intros fsolve quad xpos ypos i r j k Hi Hr Hlt Hjk Hk.
  destruct (angles_nth_exact fsolve quad xpos ypos i r j Hi Hr)
    as (_ & -> & _); [lia|].
  destruct (angles_nth_exact fsolve quad xpos ypos i r k Hi Hr Hk)
    as (_ & -> & _).
  assert (Hwin : (Rmax i (radians (of_int 5)) < radians (of_int 85))%R).
  { apply Rmax_lub_lt; [exact Hlt|].
    unfold radians. cbn [mul div of_int pi real_scalar].
    pose proof PI_RGT_0. lra. }
  set (lower := Rmax i (radians (of_int 5))) in *.
  set (upper := @radians R _ (of_int 85)) in *.
  assert (HJK : (INR j < INR k)%R) by now apply lt_INR.
  unfold degrees. cbn [mul div of_int pi real_scalar].
  pose proof PI_RGT_0 as Hpi.
  apply Rmult_lt_compat_r; [apply Rdiv_lt_0_compat; lra|].
  assert ((0 < (INR k - INR j) * (upper - lower))%R)
    by (apply Rmult_lt_0_compat; lra).
  lra.
Qed.

(** A root finder that answers the angle zero: entries 3 and 40. *)
Lemma angles_strictly_increasing_witness :
  exists r : AngSpeedSpaceResult R,
    get_ang_speed_space (ExactRef.fsolve_at 0%R) ExactRef.quad_zero
      (-3)%R 0.5%R = Some r /\
    (nth 3 (angles r) 0 < nth 40 (angles r) 0)%R.
Proof.
  eexists. split; [reflexivity|].
  apply (angles_strictly_increasing (ExactRef.fsolve_at 0%R)
           ExactRef.quad_zero (-3)%R 0.5%R 0%R _ 3%nat 40%nat);
    try reflexivity; try lia.
  unfold radians. cbn [mul div of_int pi real_scalar].
  pose proof PI_RGT_0. lra.
Defined.

(** *** a root finder that answers NaN *)

(** X13.  A NaN from the root finder is not clamped to 5 degrees:
    [max(nan, radians(5))] is [nan], so the quadrature is asked to
    integrate from NaN and forty-nine of the fifty sampled angles are
    NaN; only the last, set to the upper bound, is 85. *)
Theorem nan_intersection_is_not_clamped :
  forall (LM : Libm float) (fsolve : Fsolve float) (quad : Quad float)
         (xpos ypos : float) (rest : list float) (ier : Z),
    fsolve (f_squared_diff xpos ypos) (radians (of_int 85))
    = Build_FsolveOut (nan :: rest) ier ->
    exists r : AngSpeedSpaceResult float,
      get_ang_speed_space fsolve quad xpos ypos = Some r /\
      area r = fst (quad (f_diff xpos ypos) nan (radians (of_int 85))) /\
      angles r = repeat nan 49 ++ [85%float].
Proof.
  intros LM fsolve quad xpos ypos rest ier Hf.
  unfold get_ang_speed_space. rewrite Hf. cbn [fs_x nth_error bind].
  change (pymax nan (radians (of_int 5))) with nan.
  destruct (quad (f_diff xpos ypos) nan (radians (of_int 85)))
    as [ar er].
  eexists. split; [reflexivity|]. cbn [area angles fst].
  split; [reflexivity|]. vm_compute. reflexivity.
Qed.

(** The broken-down root finder at the launch point [(-3, 0.5)]. *)
Lemma nan_intersection_is_not_clamped_witness :
  exists r : AngSpeedSpaceResult float,
    get_ang_speed_space (LM := Ref.libm) Ref.fsolve_nan Ref.quad
      (-3)%float 0.5%float = Some r /\
    area r = fst (Ref.quad (f_diff (LM := Ref.libm) (-3) 0.5)%float nan
                           (radians (of_int 85))) /\
    angles r = repeat nan 49 ++ [85%float].
Proof.
  apply (nan_intersection_is_not_clamped Ref.libm Ref.fsolve_nan Ref.quad
           (-3)%float 0.5%float [] 5%Z).
  reflexivity.
Defined.

(** *** the drag law *)

(** Component-wise equality of two states. *)
Ltac state_eq :=
  repeat match goal with
         | |- (_, _) = (_, _) => apply f_equal2
         end.

(** X14.  [flight_model] is the quadratic drag law: in exact arithmetic,
    at every state with a non-zero speed [v], the velocity is handed on
    as the rate of the position and the acceleration is
    [- c (vx, vy) - (0, g)] with the positive coefficient
    [c = (rho A Cd / 2) v / m]; so drag opposes each velocity
    component. *)
Theorem flight_model_quadratic_drag :
  forall t px vx py vy : R,
    (0 < vx * vx + vy * vy)%R ->
    let c := ((lit 0.5%Q * air_density * cargo_area * drag_coeff)
              * sqrt (vx * vx + vy * vy) / cargo_mass)%R in
    (0 < c)%R /\
    flight_model t (px, vx, py, vy)
    = (vx, (- c * vx)%R, vy, (- c * vy - g)%R).
Proof.
  intros t px vx py vy Hv c.
  destruct drag_constants_positive as (Hm & _ & Hk).
  assert (Hs : (0 < sqrt (vx * vx + vy * vy))%R) by now apply sqrt_lt_R0.
  assert (Hss : (sqrt (vx * vx + vy * vy) * sqrt (vx * vx + vy * vy)
                 = vx * vx + vy * vy)%R) by (apply sqrt_sqrt; lra).
  split.
  - unfold c. apply Rdiv_lt_0_compat; [|exact Hm].
    apply Rmult_lt_0_compat; assumption.
  - unfold flight_model, sq, c.
    cbn [add sub mul div neg fsqrt real_scalar].
    set (k := (lit 0.5%Q * air_density * cargo_area * drag_coeff)%R) in *.
    set (m := @cargo_mass R _) in *. set (G := @g R _).
    set (v := sqrt (vx * vx + vy * vy)) in *.
    rewrite <- Hss. clearbody k m G v.
    state_eq; try reflexivity; field; split; lra.
Qed.

(** The launch of the scenario. *)
Lemma flight_model_quadratic_drag_witness :
  let c := ((lit 0.5%Q * air_density * cargo_area * drag_coeff)
            * sqrt (6 * 6 + 7 * 7) / cargo_mass)%R in
  (0 < c)%R /\
  flight_model 0%R (-3, 6, 0.5, 7)%R
  = (6, - c * 6, 7, - c * 7 - g)%R.
Proof.
  apply (flight_model_quadratic_drag 0 (-3) 6 0.5 7)%R. lra.
Defined.

(** X15.  Terminal velocity: in exact arithmetic, a ball falling
    straight down at the speed [sqrt (m g / (rho A Cd / 2))] is in
    equilibrium, [flight_model] gives it no acceleration. *)
Theorem flight_model_terminal_velocity :
  forall t px py : R,
    let vt := sqrt (cargo_mass * g
                    / (lit 0.5%Q * air_density * cargo_area * drag_coeff))%R in
    (0 < vt)%R /\
    flight_model t (px, 0, py, - vt)%R = (0, 0, - vt, 0)%R.
Proof.
  intros t px py vt.
  destruct drag_constants_positive as (Hm & Hg & Hk).
  set (k := (lit 0.5%Q * air_density * cargo_area * drag_coeff)%R) in *.
  set (m := @cargo_mass R _) in *. set (G := @g R _) in *.
  assert (Hq : (0 < m * G / k)%R).
  { apply Rdiv_lt_0_compat; [apply Rmult_lt_0_compat|]; assumption. }
  assert (Hvt : (0 < vt)%R) by (unfold vt; now apply sqrt_lt_R0).
  assert (Hsq : (vt * vt = m * G / k)%R) by (apply sqrt_sqrt; lra).
  split; [exact Hvt|].
  unfold flight_model, sq.
  cbn [add sub mul div neg fsqrt real_scalar]. fold k m G.
  replace (0 * 0 + - vt * - vt)%R with (vt * vt)%R by ring.
  rewrite sqrt_square by lra.
  assert (Hk2 : (k * (vt * vt) = m * G)%R) by (rewrite Hsq; field; lra).
  clearbody k m G vt.
  state_eq; try reflexivity.
  - field; split; lra.
  - replace (- (k * (vt * vt)) * (- vt / vt) - m * G)%R
      with (k * (vt * vt) - m * G)%R by (field; lra).
    rewrite Hk2. field; lra.
Qed.
